(** * django-rest-swagger: introspection of views, docstrings and URL trees

    A shallow embedding of
      - [rest_framework_swagger/introspectors.py],
      - [rest_framework_swagger/docstrcollector.py],
      - [rest_framework_swagger/docstrurlparser.py],
    and the properties of the docstring parser, the parameter merge, the
    route-tree flattener and the model resolver that the specification
    states about them.

    Python 2 byte strings are [string]; a [dict] with string keys is a
    [gmap string _]; a [list] is a [list]; an exception is the [Raise]
    constructor of [result]. *)

From Stdlib Require Import Ascii String ZArith.
From stdpp Require Import base option list gmap strings countable.

Local Open Scope string_scope.
Local Open Scope list_scope.

(** ** Python's [str] methods used by the sources *)

Module PyStr.

(** [sub in s] seen from the left end: [s.startswith(sub)]. *)
Fixpoint startswith (sub s : string) : bool :=
  match sub, s with
  | EmptyString, _ => true
  | String a sub', String b s' => if Ascii.eqb a b then startswith sub' s' else false
  | String _ _, EmptyString => false
  end.

(** [sub in s] and [s.find(sub) != -1]. *)
Fixpoint contains (sub s : string) : bool :=
  match s with
  | EmptyString => startswith sub s
  | String _ s' => startswith sub s || contains sub s'
  end.

(** [s.split(sep)] for a non-empty separator: the pieces between the
    non-overlapping occurrences of [sep], scanned from the left.  While
    [skip] is positive the scan is still inside an occurrence. *)
Fixpoint split_from (sep : string) (skip : nat) (s : string) : list string :=
  match s with
  | EmptyString => [EmptyString]
  | String c s' =>
      match skip with
      | S k => split_from sep k s'
      | O =>
          if startswith sep s
          then EmptyString :: split_from sep (String.length sep - 1) s'
          else match split_from sep 0 s' with
               | piece :: pieces => String c piece :: pieces
               | [] => [String c EmptyString]
               end
      end
  end.

Definition split (sep s : string) : list string := split_from sep 0 s.

(** [s.replace(old, new)] for a non-empty [old]: every non-overlapping
    occurrence, scanned from the left. *)
Fixpoint replace_from (old new : string) (skip : nat) (s : string) : string :=
  match s with
  | EmptyString => EmptyString
  | String c s' =>
      match skip with
      | S k => replace_from old new k s'
      | O =>
          if startswith old s
          then new +:+ replace_from old new (String.length old - 1) s'
          else String c (replace_from old new 0 s')
      end
  end.

Definition replace (old new s : string) : string := replace_from old new 0 s.

(** [sep.join(pieces)]. *)
Fixpoint join (sep : string) (pieces : list string) : string :=
  match pieces with
  | [] => EmptyString
  | [p] => p
  | p :: rest => p +:+ sep +:+ join sep rest
  end.

(** The bytes [str.strip()] removes: space, TAB, LF, VT, FF, CR. *)
Definition isspace (c : ascii) : bool :=
  let n := nat_of_ascii c in
  (n =? 32)%nat || ((9 <=? n)%nat && (n <=? 13)%nat).

Fixpoint lstrip (s : string) : string :=
  match s with
  | EmptyString => EmptyString
  | String c s' => if isspace c then lstrip s' else s
  end.

Fixpoint rstrip (s : string) : string :=
  match s with
  | EmptyString => EmptyString
  | String c s' =>
      match rstrip s' with
      | EmptyString => if isspace c then EmptyString else String c EmptyString
      | t => String c t
      end
  end.

Definition strip (s : string) : string := lstrip (rstrip s).

Definition lower_char (c : ascii) : ascii :=
  let n := nat_of_ascii c in
  if (65 <=? n)%nat && (n <=? 90)%nat then ascii_of_nat (n + 32) else c.

Definition upper_char (c : ascii) : ascii :=
  let n := nat_of_ascii c in
  if (97 <=? n)%nat && (n <=? 122)%nat then ascii_of_nat (n - 32) else c.

Fixpoint map_chars (f : ascii -> ascii) (s : string) : string :=
  match s with
  | EmptyString => EmptyString
  | String c s' => String (f c) (map_chars f s')
  end.

Definition lower : string -> string := map_chars lower_char.
Definition upper : string -> string := map_chars upper_char.

End PyStr.

(** ** Python values, exceptions and objects *)

Module Py.

(** The line feed, Python's ["\n"]. *)
Definition LF : string := String "010"%char EmptyString.

(** The values stored in a parameter dict: [None], [True]/[False], an
  [int], a [str], and the [allowableValues] dict
  [{'max': .., 'min': .., 'valueType': 'RANGE'}]. *)
Inductive pyval :=
| VNone
| VBool (b : bool)
| VInt (z : Z)
| VStr (s : string)
| VRange (max min : option Z).

Inductive exn :=
| RuntimeError | TypeError | KeyError | IndexError | ValueError | AttributeError.

(** A call either returns or raises. *)
Inductive result (A : Type) :=
| Return (a : A)
| Raise (e : exn).
Arguments Return {A} a.
Arguments Raise {A} e.

#[global] Instance result_ret : MRet result := fun _ a => Return a.
#[global] Instance result_bind : MBind result := fun _ _ k r =>
match r with
| Return a => k a
| Raise e => Raise e
end.
#[global] Instance result_fmap : FMap result := fun _ _ f r =>
match r with
| Return a => Return (f a)
| Raise e => Raise e
end.

(** A parameter dict, as the Swagger operation lists it. *)
Abbreviation Param := (gmap string pyval).

(** [param["name"]]. *)
Definition getitem (d : Param) (key : string) : result pyval :=
match d !! key with
| Some v => Return v
| None => Raise KeyError
end.

(** [param.update(doc_param)]: the keys of [doc_param] win. *)
Definition update (param doc_param : Param) : Param := doc_param ∪ param.

(** An attribute that is a plain value, or a callable returning one. *)
Inductive attrval :=
| Plain (v : pyval)
| Callable (returns : pyval).

(** A serializer field, by the attributes [build_form_parameters] reads;
  [None] is an attribute the field does not have (for [max_length] and
  [min_length] also one that is [None]: [getattr(.., None)] tells them
  not apart). *)
Record Field := {
read_only : option bool;
type_label : string;
max_length : option Z;
min_length : option Z;
help_text : option pyval;
field_default : option attrval;
required : option pyval;
}.

(** A serializer class: its [__name__] and what [serializer().get_fields()]
  lists, in the order of [.items()]. *)
Record Serializer := {
serializer_name : string;
get_fields : list (string * Field);
}.

(** A model class of [docstrcollector.py]: [__name__], [__doc__] and, when
  the class has it, what [get_releated_models_classes()] returns. *)
#[warning="-register-all"]
Inductive ModelClass := Build_ModelClass {
__name__ : string;
__doc__ : option string;
get_releated_models_classes : option (list ModelClass);
}.

(** A view class (the [callback] of the introspectors).
  - [attr_doc m] is [None] when [hasattr(callback, m)] is false, and
    [getattr(callback, m).__doc__] otherwise;
  - [get_serializer_class] is [None] when the class has no such method,
    and what [callback().get_serializer_class()] returns otherwise;
  - [view_description] is what rest_framework's
    [get_view_description(callback)] returns;
  - [subclass_of_APIView], [subclass_of_APIDocView] answer [issubclass];
  - [__module__] is the defining module. *)
Record ViewClass := {
attr_doc : string -> option (option string);
allowed_methods : list string;
get_serializer_class : option (option Serializer);
get_model_class : option ModelClass;
view_description : string;
subclass_of_APIView : bool;
subclass_of_APIDocView : bool;
__module__ : string;
}.

(** A code object and a closure cell of a Python 2 function. *)
Record Code := { co_freevars : option (list string) }.
Record Cell := { cell_contents : list (string * string) }.

(** What a URL pattern calls. [None] is a missing attribute;
  [func_closure] is [Some None] for a function that closes over nothing.
  [cls_instance] records [isinstance(cls_instance, APIView)]. *)
Record PatternCallback := {
cls : option ViewClass;
cls_instance : option bool;
func_code : option Code;
func_closure : option (option (list Cell));
}.

(** Django's [RegexURLPattern]: [regex.pattern], and [callback] when
  [hasattr(pattern, 'callback')]. *)
Record URLPattern := {
regex_pattern : string;
pattern_callback : option PatternCallback;
}.

(** An entry of [urlpatterns]. *)
#[warning="-register-all"]
Inductive URLEntry :=
| RegexURLPattern (pattern : URLPattern)
| RegexURLResolver (namespace : option string) (regex : string)
                   (url_patterns : list URLEntry)
| OtherEntry.

(** The dict [__assemble_endpoint_data__] returns for a matched API url:
  its keys ['path'], ['pattern'] and ['callback']. *)
Record Endpoint := {
endpoint_path : string;
endpoint_pattern : URLPattern;
endpoint_callback : ViewClass;
}.

End Py.
Import Py.

#[global] Instance pyval_eq_dec : EqDecision pyval.
Proof. solve_decision. Defined.

#[global] Instance pyval_countable : Countable pyval.
Proof.
  refine (inj_countable'
    (fun v => match v with
              | VNone => inl ()
              | VBool b => inr (inl b)
              | VInt z => inr (inr (inl z))
              | VStr s => inr (inr (inr (inl s)))
              | VRange a b => inr (inr (inr (inr (a, b))))
              end)
    (fun e => match e with
              | inl () => VNone
              | inr (inl b) => VBool b
              | inr (inr (inl z)) => VInt z
              | inr (inr (inr (inl s))) => VStr s
              | inr (inr (inr (inr (a, b)))) => VRange a b
              end) _).
  intros []; reflexivity.
Defined.

(** ** The regular expressions of [introspectors.py] *)

Module Re.

(** [s[n:]]. *)
Fixpoint drop_chars (n : nat) (s : string) : string :=
  match n, s with
  | S k, String _ s' => drop_chars k s'
  | _, _ => s
  end.

(** The rest of a match after its opening brace, read at the head of
    [s]: the run up to the first closing brace, and what follows that
    brace. *)
Fixpoint brace_group (s : string) : option (string * string) :=
  match s with
  | EmptyString => None
  | String c s' =>
      if Ascii.eqb c "}" then Some (EmptyString, s')
      else match brace_group s' with
           | Some (token, rest) => Some (String c token, rest)
           | None => None
           end
  end.

(** The pattern of [build_path_parameters] (a slash, an opening brace,
    group 1 of any bytes but a closing brace, a closing brace) matched
    at the head of [s]: group 1. *)
Definition path_token_at (s : string) : option string :=
  if PyStr.startswith "/{" s then fst <$> brace_group (drop_chars 2 s) else None.

(** [re.findall] of that pattern over [s]: group 1 of the non-overlapping
    matches, scanned from the left.  While [skip] is positive the scan
    is still inside a match. *)
Fixpoint findall_path_tokens_from (skip : nat) (s : string) : list string :=
  match s with
  | EmptyString => []
  | String _ s' =>
      match skip with
      | S k => findall_path_tokens_from k s'
      | O =>
          match path_token_at s with
          | Some token => token :: findall_path_tokens_from (String.length token + 2) s'
          | None => findall_path_tokens_from 0 s'
          end
      end
  end.

Definition findall_path_tokens (s : string) : list string :=
  findall_path_tokens_from 0 s.

Definition is_LF (c : ascii) : bool := Ascii.eqb c "010".

(** The group "(.+)" and the bracket after it, read at the head of [s]:
    the longest run without a line feed that a closing bracket follows
    (a dot matches no line feed); the run may still be empty here. *)
Fixpoint longest_before_bracket (s : string) : option string :=
  match s with
  | EmptyString => None
  | String c s' =>
      match (if is_LF c then None else longest_before_bracket s') with
      | Some run => Some (String c run)
      | None => if Ascii.eqb c "]" then Some EmptyString else None
      end
  end.

(** The tag "\[dataType=(.+)\]" matched at the head of [s]: group 2. *)
Definition data_type_at (s : string) : option string :=
  if PyStr.startswith "[dataType=" s
  then match longest_before_bracket (drop_chars 10 s) with
       | Some (String c run) => Some (String c run)
       | _ => None
       end
  else None.

(** [data_type_pattern.match(s)] for the pattern
    ".*(\[dataType=(.+)\]).*": groups 1 and 2.  The leading dot-star is
    greedy, so the rightmost start on the first line wins. *)
Fixpoint data_type_match (s : string) : option (string * string) :=
  let here :=
    match data_type_at s with
    | Some value => Some ("[dataType=" +:+ value +:+ "]", value)
    | None => None
    end in
  match s with
  | EmptyString => here
  | String c s' =>
      match (if is_LF c then None else data_type_match s') with
      | Some groups => Some groups
      | None => here
      end
  end.

End Re.

(** ** Django's [trim_docstring] (django.contrib.admindocs.utils) *)

Module Django.

(** [s.expandtabs()]: a TAB becomes the spaces up to the next multiple of
    eight; the column starts again after LF and CR. *)
Fixpoint expandtabs_from (col : nat) (s : string) : string :=
  match s with
  | EmptyString => EmptyString
  | String c s' =>
      if Ascii.eqb c "009"
      then let incr := (8 - col mod 8)%nat in
           string_of_list_ascii (replicate incr " "%char) +:+ expandtabs_from (col + incr) s'
      else if Ascii.eqb c "010" || Ascii.eqb c "013"
      then String c (expandtabs_from 0 s')
      else String c (expandtabs_from (S col) s')
  end.

Definition expandtabs (s : string) : string := expandtabs_from 0 s.

(** [s.splitlines()] of a byte string: lines end at LF, CR or CR LF, and
    a final line break opens no further line. *)
Fixpoint splitlines (s : string) : list string :=
  match s with
  | EmptyString => []
  | String c s' =>
      if Ascii.eqb c "010" then EmptyString :: splitlines s'
      else if Ascii.eqb c "013"
      then match s' with
           | String "010" s'' => EmptyString :: splitlines s''
           | _ => EmptyString :: splitlines s'
           end
      else match splitlines s' with
           | line :: lines => String c line :: lines
           | [] => [String c EmptyString]
           end
  end.

(** [len(line) - len(line.lstrip())]. *)
Definition indentation (line : string) : nat :=
  String.length line - String.length (PyStr.lstrip line).

(** [min(...)] over a list that is never empty here. *)
Definition minimum (l : list nat) : nat :=
  match l with
  | [] => 0
  | n :: l' => foldr Nat.min n l'
  end.

Definition trim_docstring (docstring : string) : string :=
  if String.eqb (PyStr.strip docstring) EmptyString then EmptyString
  else
    let lines := splitlines (expandtabs docstring) in
    let indent :=
      minimum (indentation <$>
               filter (fun line => PyStr.lstrip line <> EmptyString) lines) in
    let trimmed :=
      match lines with
      | [] => []
      | first :: others =>
          PyStr.lstrip first ::
          ((fun line => PyStr.rstrip (Re.drop_chars indent line)) <$> others)
      end in
    PyStr.strip (PyStr.join LF trimmed).

End Django.

(** ** introspectors.py *)

Module Introspectors.

(** [get_resolved_value(obj, attr)]: the attribute, called when it is
    callable, [None] when the object has none. *)
Definition get_resolved_value (attr : option attrval) : pyval :=
  match attr with
  | None => VNone
  | Some (Plain value) => value
  | Some (Callable returns) => returns
  end.

(** *** IntrospectorHelper *)

Section IntrospectorHelper.

(** [django.contrib.admindocs.utils.trim_docstring], imported. *)
Variable trim_docstring : string -> string.

(** The loop of [strip_params_from_docstring]: the index of the first
    line that, stripped, holds two hyphens. *)
Fixpoint find_cut_off (index : nat) (split_lines : list string) : option nat :=
  match split_lines with
  | [] => None
  | line :: rest =>
      let line := PyStr.strip line in
      if PyStr.contains "--" line then Some index
      else find_cut_off (S index) rest
  end.

Definition strip_params_from_docstring (docstring : string) : string :=
  let split_lines := PyStr.split LF (trim_docstring docstring) in
  let cut_off := find_cut_off 0 split_lines in
  let split_lines :=
    match cut_off with
    | Some cut_off => take cut_off split_lines
    | None => split_lines
    end in
  PyStr.join " "
    ((fun line => if String.eqb line "" then "<br/>" else line) <$> split_lines).

End IntrospectorHelper.

Definition get_serializer_name (serializer : option Serializer) : option string :=
  serializer_name <$> serializer.

(** [IntrospectorHelper.get_view_description]: the first sentence of the
    first line. *)
Definition get_view_description (callback : ViewClass) : string :=
  hd "" (PyStr.split "." (hd "" (PyStr.split LF (view_description callback)))).

(** *** BaseViewIntrospector and BaseMethodIntrospector *)

Record BaseViewIntrospector := {
  callback : ViewClass;
  path : string;
  pattern : URLPattern;
}.

(** The two method introspectors; a [ViewSetMethodIntrospector] keeps the
    HTTP method its constructor upper-cased. *)
Inductive BaseMethodIntrospector :=
  | APIViewMethodIntrospector (parent : BaseViewIntrospector) (method : string)
  | ViewSetMethodIntrospector (parent : BaseViewIntrospector) (method : string)
                              (http_method : string).

(** [ViewSetMethodIntrospector.__init__]. *)
Definition new_ViewSetMethodIntrospector (view_introspector : BaseViewIntrospector)
    (method http_method : string) : BaseMethodIntrospector :=
  ViewSetMethodIntrospector view_introspector method (PyStr.upper http_method).

Definition parent (self : BaseMethodIntrospector) : BaseViewIntrospector :=
  match self with
  | APIViewMethodIntrospector parent _ => parent
  | ViewSetMethodIntrospector parent _ _ => parent
  end.

Definition method (self : BaseMethodIntrospector) : string :=
  match self with
  | APIViewMethodIntrospector _ method => method
  | ViewSetMethodIntrospector _ method _ => method
  end.

Definition get_http_method (self : BaseMethodIntrospector) : string :=
  match self with
  | APIViewMethodIntrospector _ method => method
  | ViewSetMethodIntrospector _ _ http_method => http_method
  end.

Definition get_serializer_class (self : BaseViewIntrospector) : option Serializer :=
  match Py.get_serializer_class (callback self) with
  | Some serializer => serializer
  | None => None
  end.

Definition get_description (self : BaseViewIntrospector) : string :=
  get_view_description (callback self).

(** The docs of a class method; [None] if the method does not exist (or
    has no docstring). *)
Definition retrieve_docstring (self : BaseMethodIntrospector) : option string :=
  let method := PyStr.lower (method self) in
  match attr_doc (callback (parent self)) method with
  | None => None
  | Some doc => doc
  end.

Definition get_docs (self : BaseMethodIntrospector) : option string :=
  retrieve_docstring self.

Definition build_body_parameters (self : BaseMethodIntrospector) : option Param :=
  let serializer := get_serializer_class (parent self) in
  match get_serializer_name serializer with
  | None => None
  | Some serializer_name =>
      Some {[ "name" := VStr serializer_name;
              "dataType" := VStr serializer_name;
              "paramType" := VStr "body" ]}
  end.

(** Gets the parameters from the URL. *)
Definition build_path_parameters (self : BaseMethodIntrospector) : list Param :=
  let url_params := Re.findall_path_tokens (path (parent self)) in
  (fun param => ({[ "name" := VStr param;
                    "dataType" := VStr "string";
                    "paramType" := VStr "path";
                    "required" := VBool true ]} : Param)) <$> url_params.

(** One turn of the loop of [build_form_parameters]. *)
Definition form_parameter (name : string) (field : Field) : option Param :=
  if default false (read_only field) then None
  else
    let data_type := type_label field in
    let max_length := max_length field in
    let min_length := min_length field in
    let allowable_values :=
      if bool_decide (max_length <> None) || bool_decide (min_length <> None)
      then VRange max_length min_length
      else VNone in
    Some {[ "paramType" := VStr "form";
            "name" := VStr name;
            "dataType" := VStr data_type;
            "allowableValues" := allowable_values;
            "description" := default (VStr "") (help_text field);
            "defaultValue" := get_resolved_value (field_default field);
            "required" := default VNone (required field) ]}.

(** Builds form parameters from the serializer class. *)
Definition build_form_parameters (self : BaseMethodIntrospector) : list Param :=
  match get_serializer_class (parent self) with
  | None => []
  | Some serializer =>
      omap (fun item => form_parameter item.1 item.2) (get_fields serializer)
  end.

(** The body of the loop of [build_query_params_from_docstring]: what one
    line adds to [params]. *)
Definition docstring_param (line : string) : option Param :=
  match PyStr.split " -- " line with
  | [name; description] =>
      let param_dict : Param := {[ "name" := VStr (PyStr.strip name) ]} in
      (* Override paramType if keyword is present *)
      let '(param_dict, description) :=
        if PyStr.contains "[paramType=form]" description
        then (<["paramType" := VStr "form"]> param_dict,
              PyStr.replace "[paramType=form]" "" description)
        else if PyStr.contains "[paramType=body]" description
        then (<["paramType" := VStr "body"]> param_dict,
              PyStr.replace "[paramType=body]" "" description)
        else (param_dict, description) in
      (* Set required flag if present *)
      let '(param_dict, description) :=
        if PyStr.contains "[required]" description
        then (<["required" := VBool true]> param_dict,
              PyStr.replace "[required]" "" description)
        else (param_dict, description) in
      (* Set dataType if keyword is present *)
      let '(param_dict, description) :=
        match Re.data_type_match description with
        | Some (group1, group2) =>
            (<["dataType" := VStr group2]> param_dict,
             PyStr.replace group1 "" description)
        | None => (param_dict, description)
        end in
      Some (<["description" := VStr (PyStr.strip description)]> param_dict)
  | _ => None
  end.

Definition build_query_params_from_docstring (self : BaseMethodIntrospector)
    : list Param :=
  let docstring := default "" (retrieve_docstring self) in
  let docstring := docstring +:+ LF +:+ view_description (callback (parent self)) in
  let split_lines := PyStr.split LF docstring in
  omap docstring_param split_lines.

(** The parameters of the path, the form and the body: [params] before
    the docstring parameters are merged in. *)
Definition collected_parameters (self : BaseMethodIntrospector) : list Param :=
  let params := [] in
  let path_params := build_path_parameters self in
  let body_params := build_body_parameters self in
  let form_params := build_form_parameters self in
  let params := params ++ path_params in
  if bool_decide (get_http_method self ∉ ["GET"; "DELETE"])
  then
    let params := params ++ form_params in
    match form_params, body_params with
    | [], Some body_params => params ++ [body_params]
    | _, _ => params
    end
  else params.

(** [params_map[param["name"]] = param] for every [param]: the map keeps,
    for a name, the place in [params] of the dict it refers to. *)
Fixpoint build_params_map (index : nat) (params : list Param)
    (params_map : gmap pyval nat) : result (gmap pyval nat) :=
  match params with
  | [] => Return params_map
  | param :: rest =>
      name ← getitem param "name";
      build_params_map (S index) rest (<[name := index]> params_map)
  end.

(** One turn of the loop over [docstring_params]: the dict [params_map]
    refers to is updated where it is, any other one is appended. *)
Definition merge_doc_param (params_map : gmap pyval nat) (params : list Param)
    (doc_param : Param) : result (list Param) :=
  name ← getitem doc_param "name";
  match params_map !! name with
  | Some place => Return (alter (fun param => update param doc_param) place params)
  | None =>
      let doc_param :=
        if bool_decide (doc_param !! "paramType" = None)
        then <["paramType" := VStr "query"]> doc_param else doc_param in
      let doc_param :=
        if bool_decide (doc_param !! "dataType" = None)
        then <["dataType" := VStr ""]> doc_param else doc_param in
      Return (params ++ [doc_param])
  end.

Fixpoint merge_doc_params (params_map : gmap pyval nat) (params : list Param)
    (docstring_params : list Param) : result (list Param) :=
  match docstring_params with
  | [] => Return params
  | doc_param :: rest =>
      params ← merge_doc_param params_map params doc_param;
      merge_doc_params params_map params rest
  end.

(** The last block of [get_parameters]. *)
Definition merge_docstring_params (params docstring_params : list Param)
    : result (list Param) :=
  match docstring_params with
  | [] => Return params
  | _ :: _ =>
      params_map ← build_params_map 0 params ∅;
      merge_doc_params params_map params docstring_params
  end.

(** Returns parameters for an API. *)
Definition get_parameters (self : BaseMethodIntrospector) : result (list Param) :=
  let docstring_params := build_query_params_from_docstring self in
  merge_docstring_params (collected_parameters self) docstring_params.

(** *** APIViewIntrospector and ViewSetIntrospector *)

(** [seq.index(x)] of a tuple of names. *)
Fixpoint tuple_index (x : string) (seq : list string) : result nat :=
  match seq with
  | [] => Raise ValueError
  | y :: seq' => if String.eqb y x then Return 0%nat else S <$> tuple_index x seq'
  end.

Definition APIViewIntrospector_iter (self : BaseViewIntrospector)
    : list BaseMethodIntrospector :=
  APIViewMethodIntrospector self <$> allowed_methods (callback self).

Definition _resolve_methods (self : BaseViewIntrospector)
    : result (list (string * string)) :=
  match pattern_callback (pattern self) with
  | None => Raise AttributeError
  | Some callback =>
      match func_code callback, func_closure callback with
      | Some func_code, Some func_closure =>
          match co_freevars func_code with
          | Some co_freevars =>
              if bool_decide ("actions" ∉ co_freevars)
              then Raise RuntimeError
              else
                idx ← tuple_index "actions" co_freevars;
                match func_closure with
                | None => Raise TypeError
                | Some cells =>
                    match cells !! idx with
                    | Some cell => Return (cell_contents cell)
                    | None => Raise IndexError
                    end
                end
          | None => Raise RuntimeError
          end
      | _, _ => Raise RuntimeError
      end
  end.

Definition ViewSetIntrospector_iter (self : BaseViewIntrospector)
    : result (list BaseMethodIntrospector) :=
  methods ← _resolve_methods self;
  Return (map (fun item : string * string =>
                 new_ViewSetMethodIntrospector self item.2 item.1) methods).

End Introspectors.

(** ** docstrcollector.py *)

Module Docstrcollector.
Import Introspectors.

(** [DocstrIntrospector._get_releated_classes_models_list]. *)
Fixpoint _get_releated_classes_models_list (obj_class : ModelClass)
    : list ModelClass :=
  match get_releated_models_classes obj_class with
  | Some releated_obj_classes =>
      releated_obj_classes ++
      concat (map (fun cls =>
                     match get_releated_models_classes cls with
                     | Some _ => _get_releated_classes_models_list cls
                     | None => []
                     end) releated_obj_classes)
  | None => []
  end.

(** [DocstrIntrospector.get_models]. *)
Definition DocstrIntrospector_get_models (self : BaseViewIntrospector)
    : list ModelClass :=
  match get_model_class (callback self) with
  | Some root_model => root_model :: _get_releated_classes_models_list root_model
  | None => []
  end.

(** [DocstrCollector.get_introspector]. *)
Definition get_introspector (api : Endpoint) : BaseViewIntrospector :=
  {| callback := endpoint_callback api;
     path := endpoint_path api;
     pattern := endpoint_pattern api |}.

(** [intro.get_yaml_parser()]: no class that [DocstrIntrospector] inherits
    from ([APIViewIntrospector], [BaseViewIntrospector]) defines
    [get_yaml_parser], so the call raises [AttributeError] and there is no
    parser that it returns. *)
Definition YamlParser : Type := Empty_set.

Definition get_yaml_parser (self : BaseViewIntrospector) : result YamlParser :=
  Raise AttributeError.

(** [parser.load_obj_from_docstring(docstring)], of a parser. *)
Definition load_obj_from_docstring (parser : YamlParser) (docstring : option string)
    : pyval :=
  match parser with end.

(** The inner loop of [DocstrCollector.get_models], over the classes of
    one api. *)
Fixpoint collect_models (parser : YamlParser) (models_classes : list ModelClass)
    (models : gmap string pyval) : gmap string pyval :=
  match models_classes with
  | [] => models
  | cls :: rest =>
      let doc := load_obj_from_docstring parser (__doc__ cls) in
      collect_models parser rest (<[__name__ cls := doc]> models)
  end.

(** The outer loop, over the apis. *)
Fixpoint get_models_from (apis : list Endpoint) (models : gmap string pyval)
    : result (gmap string pyval) :=
  match apis with
  | [] => Return models
  | api :: rest =>
      let intro := get_introspector api in
      let models_classes := DocstrIntrospector_get_models intro in
      parser ← get_yaml_parser intro;
      get_models_from rest (collect_models parser models_classes models)
  end.

(** [DocstrCollector.get_models]. *)
Definition DocstrCollector_get_models (apis : list Endpoint)
    : result (gmap string pyval) :=
  get_models_from apis ∅.

End Docstrcollector.

(** ** docstrurlparser.py *)

Module Docstrurlparser.

Section DocstrUrlParser.

(** [django.contrib.admindocs.views.simplify_regex], imported. *)
Variable simplify_regex : string -> string.

(** Verifies that pattern callback is a subclass of APIView, and
    returns the class.  In the second branch [issubclass] is asked
    about an instance, which raises. *)
Definition __get_pattern_api_callback__ (pattern : URLPattern)
    : result (option ViewClass) :=
  match pattern_callback pattern with
  | None => Return None
  | Some callback =>
      match cls callback with
      | Some cls =>
          if subclass_of_APIView cls && negb (subclass_of_APIDocView cls)
          then Return (Some cls)
          else match cls_instance callback with
               | Some true => Raise TypeError
               | _ => Return None
               end
      | None =>
          match cls_instance callback with
          | Some true => Raise TypeError
          | _ => Return None
          end
      end
  end.

(** Returns True if the URL's callback is rest_framework.routers.APIRoot. *)
Definition __exclude_router_api_root__ (callback : ViewClass) : bool :=
  String.eqb (__module__ callback) "rest_framework.routers".

(** Excludes URL patterns that contain .{format}. *)
Definition __exclude_format_endpoints__ (path : string) : bool :=
  PyStr.contains ".{format}" path.

(** Creates a dictionary for matched API urls; [None] for a pattern
    that is left out. *)
Definition __assemble_endpoint_data__ (pattern : URLPattern) (prefix : string)
    : result (option Endpoint) :=
  callback ← __get_pattern_api_callback__ pattern;
  match callback with
  | None => Return None
  | Some callback =>
      if __exclude_router_api_root__ callback then Return None
      else
        let path := simplify_regex (prefix +:+ regex_pattern pattern) in
        let path := PyStr.replace ">" "}" (PyStr.replace "<" "{" path) in
        if __exclude_format_endpoints__ path then Return None
        else Return (Some {| endpoint_path := path;
                             endpoint_pattern := pattern;
                             endpoint_callback := callback |})
  end.

(** One turn of the loop of [__flatten_patterns_tree__]: what the entry
    [pattern] adds to [pattern_list].  The inner [fix] is the loop
    itself, over the children of a resolver. *)
Fixpoint flatten_entry (exclude_namespaces : list (option string))
    (prefix : string) (pattern : URLEntry) : result (list Endpoint) :=
  match pattern with
  | RegexURLPattern pattern =>
      endpoint_data ← __assemble_endpoint_data__ pattern prefix;
      match endpoint_data with
      | None => Return []
      | Some endpoint_data => Return [endpoint_data]
      end
  | RegexURLResolver namespace regex url_patterns =>
      if bool_decide (namespace ∈ exclude_namespaces) then Return []
      else
        let pref := prefix +:+ regex in
        (fix flatten (patterns : list URLEntry) : result (list Endpoint) :=
           match patterns with
           | [] => Return []
           | pattern :: rest =>
               added ← flatten_entry exclude_namespaces pref pattern;
               pattern_list ← flatten rest;
               Return (added ++ pattern_list)
           end) url_patterns
  | OtherEntry => Return []
  end.

(** Uses recursion to flatten url tree. *)
Fixpoint __flatten_patterns_tree__ (patterns : list URLEntry) (prefix : string)
    (exclude_namespaces : list (option string)) : result (list Endpoint) :=
  match patterns with
  | [] => Return []
  | pattern :: rest =>
      added ← flatten_entry exclude_namespaces prefix pattern;
      pattern_list ← __flatten_patterns_tree__ rest prefix exclude_namespaces;
      Return (added ++ pattern_list)
  end.

End DocstrUrlParser.

End Docstrurlparser.

(** ** introspectors.py: summary, nickname and notes of a method *)

Module MethodDocs.
Import Introspectors.

(** The end of a match of the pattern of [get_notes] (a line feed, one or
    more whitespace bytes, a line feed) after its first whitespace byte,
    read at the head of [s]: whitespace up to a line feed, as far as it
    goes; what follows the match is returned. *)
Fixpoint whitespace_to_LF (s : string) : option string :=
  match s with
  | EmptyString => None
  | String c s' =>
      if PyStr.isspace c
      then match whitespace_to_LF s' with
           | Some rest => Some rest
           | None => if Re.is_LF c then Some s' else None
           end
      else None
  end.

(** That pattern after its first line feed, read at the head of [s]. *)
Definition blank_lines_after (s : string) : option string :=
  match s with
  | EmptyString => None
  | String c s' => if PyStr.isspace c then whitespace_to_LF s' else None
  end.

(** [re.sub] of that pattern by the line-break marker: every
    non-overlapping match, scanned from the left.  While [skip] is positive
    the scan is still inside a match. *)
Fixpoint sub_blank_lines_from (skip : nat) (s : string) : string :=
  match s with
  | EmptyString => EmptyString
  | String c s' =>
      match skip with
      | S k => sub_blank_lines_from k s'
      | O =>
          match (if Re.is_LF c then blank_lines_after s' else None) with
          | Some rest =>
              "<br/>" +:+
              sub_blank_lines_from (String.length s' - String.length rest) s'
          | None => String c (sub_blank_lines_from 0 s')
          end
      end
  end.

Definition sub_blank_lines (s : string) : string := sub_blank_lines_from 0 s.

Section MethodDocs.

(** [django.contrib.admindocs.utils.trim_docstring] and
    [rest_framework.views.get_view_name], imported. *)
Variable trim_docstring : string -> string.
Variable get_view_name : ViewClass -> string.

Definition get_summary (self : BaseMethodIntrospector) : string :=
  let docs := get_docs self in
  (* If there is no docstring on the method, get class docs *)
  let docs :=
    match docs with
    | None => get_description (parent self)
    | Some docs => docs
    end in
  hd "" (PyStr.split LF (trim_docstring docs)).

(** Returns the APIView's nickname. *)
Definition get_nickname (self : BaseMethodIntrospector) : string :=
  PyStr.replace " " "_" (get_view_name (callback (parent self))).

(** Returns the body of the docstring trimmed before any parameters are
    listed. *)
Definition get_notes (self : BaseMethodIntrospector) : string :=
  let docstring := "" in
  let class_docs := trim_docstring (view_description (callback (parent self))) in
  let method_docs := get_docs self in
  let docstring := docstring +:+ class_docs in
  let docstring :=
    match method_docs with
    | Some method_docs => docstring +:+ LF +:+ method_docs
    | None => docstring
    end in
  let docstring := strip_params_from_docstring trim_docstring docstring in
  let docstring := sub_blank_lines docstring in
  PyStr.replace LF " " docstring.

End MethodDocs.

End MethodDocs.

(** ** docstrurlparser.py: the apis of a path *)

Module Apis.

(** [s.lstrip(chars)] and [s.rstrip(chars)] and [s.strip(chars)] for the
    one byte [c]. *)
Fixpoint lstrip_byte (c : ascii) (s : string) : string :=
  match s with
  | EmptyString => EmptyString
  | String x s' => if Ascii.eqb x c then lstrip_byte c s' else s
  end.

Fixpoint rstrip_byte (c : ascii) (s : string) : string :=
  match s with
  | EmptyString => EmptyString
  | String x s' =>
      match rstrip_byte c s' with
      | EmptyString => if Ascii.eqb x c then EmptyString else String x EmptyString
      | t => String x t
      end
  end.

Definition strip_byte (c : ascii) (s : string) : string :=
  lstrip_byte c (rstrip_byte c s).

Section Apis.

(** An api dict, and its [x.get('api')]: [None] without that key. *)
Context {Api : Type}.
Variable get_api : Api -> option string.

Definition get_filtered_apis (apis : list Api) (filter_path : string) : list Api :=
  filter (fun x => filter_path = strip_byte "/" (default "" (get_api x))) apis.

(** The apis that have the key, as a set of its values. *)
Definition get_top_level_apis (apis : list Api) : gset string :=
  list_to_set (omap get_api apis).

End Apis.

End Apis.

(** ** Vocabulary of the statements *)

(** The notes made of the lines that are kept: a blank line becomes the
    line-break marker, and the lines are joined by spaces. *)
Definition notes_of_lines (lines : list string) : string :=
  PyStr.join " " ((fun line => if String.eqb line "" then "<br/>" else line) <$> lines).

(** The lines before the first line that holds [token]. *)
Fixpoint lines_before (token : string) (lines : list string) : list string :=
  match lines with
  | [] => []
  | line :: rest =>
      if PyStr.contains token line then [] else line :: lines_before token rest
  end.

(** A dict that binds ["name"] to [name]. *)
Definition param_named (name : pyval) (param : Param) : Prop :=
  param !! "name" = Some name.


(** The last place of [params] whose dict is named [name], counted from
    [index]: [last_named], computed. *)
Fixpoint place_of (name : pyval) (index : nat) (params : list Param) : option nat :=
  match params with
  | [] => None
  | param :: rest =>
      match place_of name (S index) rest with
      | Some place => Some place
      | None => if decide (param !! "name" = Some name) then Some index else None
      end
  end.

(** The names of a list of dicts, place by place. *)
Definition names_of (params : list Param) : list (option pyval) :=
  (fun param : Param => param !! "name") <$> params.

(** What the loop over the docstring parameters keeps true of [params] as
    it grows: the dicts that were there keep their places and names, and
    the dicts that were appended have names the map does not know. *)
Definition merge_invariant (params : list Param) (params_map : gmap pyval nat)
    (state : list Param) : Prop :=
  exists kept appended,
    state = kept ++ appended /\
    names_of kept = names_of params /\
    Forall (fun param => exists name,
                param_named name param /\ params_map !! name = None) appended.

(** The line of the specification's example, with its tags in both orders,
    and the dict it stands for. *)
Definition foo_lines : list string :=
  [ "foo -- bar [required][dataType=int]";
    "foo -- bar [dataType=int][required]" ].

Definition foo_param : Param :=
  {[ "name" := VStr "foo";
     "required" := VBool true;
     "dataType" := VStr "int";
     "description" := VStr "bar" ]}.

(** The texts [build_query_params_from_docstring] reads for a method: the
    docstring of the method and the description of the view class. *)
Definition documents (self : Introspectors.BaseMethodIntrospector) (doc : string) : Prop :=
  Introspectors.retrieve_docstring self = Some doc \/
  doc = view_description (Introspectors.callback (Introspectors.parent self)).

(** ** A view to run the statements on *)

Module Example.

Definition x_field : Field :=
  {| read_only := None; type_label := ""; max_length := Some 30%Z;
     min_length := None; help_text := Some (VStr "the x");
     field_default := None; required := Some (VBool false) |}.

Definition XSerializer : Serializer :=
  {| serializer_name := "XSerializer"; get_fields := [("x", x_field)] |}.

Definition post_doc : string :=
  "Creates a post." +:+ LF +:+
  "x -- desc [dataType=int]" +:+ LF +:+
  "foo -- bar [required][dataType=int]".

Definition PostView : ViewClass :=
  {| attr_doc := fun attr =>
       if String.eqb attr "post" then Some (Some post_doc)
       else if String.eqb attr "get" then Some None
       else None;
     allowed_methods := ["GET"; "POST"];
     get_serializer_class := Some (Some XSerializer);
     get_model_class := None;
     view_description := "Posts of a user." +:+ LF +:+ "page -- the page";
     subclass_of_APIView := true;
     subclass_of_APIDocView := false;
     __module__ := "blog.views" |}.

Definition post_pattern : URLPattern :=
  {| regex_pattern := "^users/(?P<id>[0-9]+)/posts/(?P<post_id>[0-9]+)/$";
     pattern_callback :=
       Some {| cls := Some PostView; cls_instance := None;
               func_code := None; func_closure := None |} |}.

Definition post_view : Introspectors.BaseViewIntrospector :=
  {| Introspectors.callback := PostView;
     Introspectors.path := "/users/{id}/posts/{post_id}";
     Introspectors.pattern := post_pattern |}.

(** The same view under [^users-(?P<id>..)/$], as [simplify_regex] and
    the change of brackets leave that pattern. *)
Definition hyphen_view : Introspectors.BaseViewIntrospector :=
  {| Introspectors.callback := PostView;
     Introspectors.path := "/users-{id}/";
     Introspectors.pattern := post_pattern |}.

Definition POST : Introspectors.BaseMethodIntrospector :=
  Introspectors.APIViewMethodIntrospector post_view "POST".
Definition GET : Introspectors.BaseMethodIntrospector :=
  Introspectors.APIViewMethodIntrospector post_view "GET".

(** A view set pattern: [as_view] closes over [actions] and [initkwargs]. *)
Definition viewset_pattern : URLPattern :=
  {| regex_pattern := "^posts/$";
     pattern_callback :=
       Some {| cls := Some PostView; cls_instance := None;
               func_code := Some {| co_freevars := Some ["initkwargs"; "actions"] |};
               func_closure :=
                 Some (Some [ {| cell_contents := [] |};
                              {| cell_contents := [("get", "list"); ("post", "create")] |} ])
            |} |}.

Definition viewset_view : Introspectors.BaseViewIntrospector :=
  {| Introspectors.callback := PostView;
     Introspectors.path := "/posts/";
     Introspectors.pattern := viewset_pattern |}.

(** Models [A] with [B] and [C], and [B] with [D]. *)
Definition D : ModelClass :=
  {| __name__ := "D"; __doc__ := Some "d"; get_releated_models_classes := None |}.
Definition C : ModelClass :=
  {| __name__ := "C"; __doc__ := None; get_releated_models_classes := Some [] |}.
Definition B : ModelClass :=
  {| __name__ := "B"; __doc__ := Some "b"; get_releated_models_classes := Some [D] |}.
Definition A : ModelClass :=
  {| __name__ := "A"; __doc__ := Some "a"; get_releated_models_classes := Some [B; C] |}.

Definition ModelView : ViewClass :=
  {| attr_doc := fun _ => None;
     allowed_methods := ["GET"];
     get_serializer_class := None;
     get_model_class := Some A;
     view_description := "";
     subclass_of_APIView := true;
     subclass_of_APIDocView := false;
     __module__ := "blog.views" |}.

(** A route tree: the posts, and under the namespace [admin] a resolver
    with a leaf and a nested resolver. *)
Definition admin_pattern : URLPattern :=
  {| regex_pattern := "^secret/$";
     pattern_callback :=
       Some {| cls := None; cls_instance := Some true;
               func_code := None; func_closure := None |} |}.

(** A stand-in for Django's [simplify_regex], which leaves the pattern
    as it is. *)
Definition keep_regex (pattern : string) : string := pattern.

Definition urlpatterns : list URLEntry :=
  [ RegexURLPattern post_pattern;
    RegexURLResolver (Some "api") "^api/"
      [ RegexURLPattern viewset_pattern;
        RegexURLResolver (Some "admin") "^admin/"
          [ RegexURLPattern admin_pattern;
            RegexURLResolver None "^deep/" [RegexURLPattern admin_pattern] ] ] ].

Definition model_api : Endpoint :=
  {| endpoint_path := "/models/";
     endpoint_pattern := post_pattern;
     endpoint_callback := ModelView |}.

End Example.

(** The dict [build_path_parameters] makes of a token of the path. *)
Definition path_param (token : string) : Param :=
  {[ "name" := VStr token;
     "dataType" := VStr "string";
     "paramType" := VStr "path";
     "required" := VBool true ]}.

(** A path written piece by piece: each piece is a text, then a slash and
    a token in braces; a tail ends the path. *)
Fixpoint path_of_segments (segments : list (string * string)) (tail : string) : string :=
  match segments with
  | [] => tail
  | (text, token) :: rest =>
      text +:+ "/{" +:+ token +:+ "}" +:+ path_of_segments rest tail
  end.

(** The pieces the statement is about: in a text, no opening brace that a
    slash directly precedes; in a token, no closing brace. *)
Definition plain_segment (segment : string * string) : Prop :=
  PyStr.contains "/{" segment.1 = false /\ PyStr.contains "}" segment.2 = false.

(** A tail that holds no token: no opening brace that a slash directly
    precedes, or after the first such one no closing brace. *)
Definition closed_tail (tail : string) : Prop :=
  PyStr.contains "/{" tail = false \/
  exists text rest,
    tail = text +:+ "/{" +:+ rest /\
    PyStr.contains "/{" text = false /\ PyStr.contains "}" rest = false.

(** The specification's reading of the tokens of a path: every group in
    braces, scanned from the left, whatever stands before its opening
    brace. *)
Definition brace_token_at (s : string) : option string :=
  if PyStr.startswith "{" s then fst <$> Re.brace_group (Re.drop_chars 1 s) else None.

Fixpoint brace_tokens_from (skip : nat) (s : string) : list string :=
  match s with
  | EmptyString => []
  | String _ s' =>
      match skip with
      | S k => brace_tokens_from k s'
      | O =>
          match brace_token_at s with
          | Some token => token :: brace_tokens_from (String.length token + 1) s'
          | None => brace_tokens_from 0 s'
          end
      end
  end.

Definition brace_tokens (s : string) : list string := brace_tokens_from 0 s.

(** A callback of the shape [_resolve_methods] expects: a function with a
    code object and a closure whose free variables list ['actions']. *)
Definition has_actions_closure (callback : PatternCallback) : Prop :=
  exists code freevars closure,
    func_code callback = Some code /\
    func_closure callback = Some closure /\
    co_freevars code = Some freevars /\
    "actions" ∈ freevars.

(** [idx] is the first place of [name] in a tuple of names. *)
Definition first_index (name : string) (names : list string) (idx : nat) : Prop :=
  names !! idx = Some name /\
  forall earlier, (earlier < idx)%nat -> names !! earlier <> Some name.

(** A model class that declares no related model: it has no
    [get_releated_models_classes], or it returns the empty list. *)
Definition declares_none (cls : ModelClass) : Prop :=
  get_releated_models_classes cls = None \/
  get_releated_models_classes cls = Some [].

(** The route tree without the resolvers whose namespace is excluded, at
    every depth. *)
Fixpoint prune (exclude_namespaces : list (option string)) (pattern : URLEntry)
    : list URLEntry :=
  match pattern with
  | RegexURLResolver namespace regex url_patterns =>
      if bool_decide (namespace ∈ exclude_namespaces) then []
      else [RegexURLResolver namespace regex
              (concat (map (prune exclude_namespaces) url_patterns))]
  | _ => [pattern]
  end.

Definition prune_patterns (exclude_namespaces : list (option string))
    (patterns : list URLEntry) : list URLEntry :=
  concat (map (prune exclude_namespaces) patterns).

(** [endpoint] is what a leaf of [patterns] gives, a leaf reached through
    resolvers none of which has an excluded namespace; [prefix] is the
    prefix of the patterns. *)
Inductive reaches (simplify_regex : string -> string)
    (exclude_namespaces : list (option string))
    : string -> list URLEntry -> Endpoint -> Prop :=
  | reaches_leaf prefix patterns pattern endpoint :
      RegexURLPattern pattern ∈ patterns ->
      Docstrurlparser.__assemble_endpoint_data__ simplify_regex pattern prefix
        = Return (Some endpoint) ->
      reaches simplify_regex exclude_namespaces prefix patterns endpoint
  | reaches_resolver prefix patterns namespace regex url_patterns endpoint :
      RegexURLResolver namespace regex url_patterns ∈ patterns ->
      namespace ∉ exclude_namespaces ->
      reaches simplify_regex exclude_namespaces (prefix +:+ regex) url_patterns endpoint ->
      reaches simplify_regex exclude_namespaces prefix patterns endpoint.

(** What the tags of a description leave of it, tag by tag: every
    [[paramType=form]], or when there is none every [[paramType=body]];
    then every [[required]]; then every copy of the [[dataType=..]] tag
    that the pattern matches. *)
Definition param_type_tag (description : string) : option pyval :=
  if PyStr.contains "[paramType=form]" description then Some (VStr "form")
  else if PyStr.contains "[paramType=body]" description then Some (VStr "body")
  else None.

Definition without_param_type (description : string) : string :=
  if PyStr.contains "[paramType=form]" description
  then PyStr.replace "[paramType=form]" "" description
  else PyStr.replace "[paramType=body]" "" description.

Definition without_required (description : string) : string :=
  PyStr.replace "[required]" "" description.

Definition without_data_type (description : string) : string :=
  match Re.data_type_match description with
  | Some groups => PyStr.replace groups.1 "" description
  | None => description
  end.

Definition without_tags (description : string) : string :=
  without_data_type (without_required (without_param_type description)).

(** * Properties *)

(** ** Facts about the string methods *)

#[local] Arguments Ascii.eqb : simpl never.

Section PyStrFacts.
Import PyStr.

Lemma split_from_nonempty sep k s : split_from sep k s <> [].
Proof.
  revert k. induction s as [|c s IH]; intros k; simpl; [done|].
  destruct k; [|apply IH].
  destruct (startswith sep (String c s)); [done|].
  destruct (split_from sep 0 s) eqn:E; done.
Qed.

(** Splitting at a one-byte separator distributes over that separator. *)
Lemma split_char_app c a b :
  split (String c "") (a +:+ String c b) =
  split (String c "") a ++ split (String c "") b.
Proof.
  unfold split. induction a as [|x a IH]; simpl.
  - rewrite Ascii.eqb_refl. reflexivity.
  - rewrite IH. destruct (Ascii.eqb c x); [reflexivity|].
    destruct (split_from (String c "") 0 a) eqn:Ea; [|reflexivity].
    by apply split_from_nonempty in Ea.
Qed.

Lemma split_LF_app a b : split LF (a +:+ LF +:+ b) = split LF a ++ split LF b.
Proof. apply split_char_app. Qed.

(** A string without the separator is one piece. *)
Lemma split_without sep s : contains sep s = false -> split sep s = [s].
Proof.
  unfold split. induction s as [|c s IH]; simpl; [done|].
  intros [H1 H2]%orb_false_elim. rewrite H1, (IH H2). reflexivity.
Qed.

Lemma startswith_empty sub : startswith sub "" = true -> sub = "".
Proof. destruct sub; [done|discriminate]. Qed.

(** A string with the separator is at least two pieces. *)
Lemma split_with sep s :
  sep <> "" -> contains sep s = true -> (2 <= length (split sep s))%nat.
Proof.
  intros Hsep. unfold split. induction s as [|c s IH]; simpl.
  - intros H%startswith_empty. done.
  - intros H. destruct (startswith sep (String c s)) eqn:E.
    + pose proof (split_from_nonempty sep (String.length sep - 1) s).
      destruct (split_from sep (String.length sep - 1) s); [done|simpl; lia].
    + simpl in H. specialize (IH H).
      destruct (split_from sep 0 s); simpl in *; lia.
Qed.

Lemma startswith_app sub s : startswith sub s = true -> exists t, s = sub +:+ t.
Proof.
  revert s. induction sub as [|a sub IH]; intros s; simpl.
  - eauto.
  - destruct s as [|b s]; [done|].
    destruct (Ascii.eqb_spec a b) as [->|]; [|done].
    intros [t ->]%IH. eauto.
Qed.

Lemma string_length_app a b :
  String.length (a +:+ b) = (String.length a + String.length b)%nat.
Proof. induction a; simpl; auto. Qed.

Lemma drop_chars_app a b : Re.drop_chars (String.length a) (a +:+ b) = b.
Proof. induction a; simpl; auto. Qed.

Lemma split_from_skip sep k s :
  split_from sep k s = split_from sep 0 (Re.drop_chars k s).
Proof.
  revert k. induction s as [|c s IH]; intros [|k]; try reflexivity.
  simpl split_from at 1. rewrite IH. reflexivity.
Qed.

Lemma drop_chars_length k s : (String.length (Re.drop_chars k s) <= String.length s)%nat.
Proof.
  revert k. induction s as [|c s IH]; intros [|k]; simpl; try lia.
  specialize (IH k). lia.
Qed.

(** Joining the pieces with the separator gives the string back. *)
Lemma join_split sep s : sep <> "" -> join sep (split sep s) = s.
Proof.
  intros Hsep. unfold split.
  remember (String.length s) as n eqn:Hn.
  revert s Hn. induction n as [n IH] using lt_wf_ind. intros s Hn.
  destruct s as [|c s]; [reflexivity|].
  simpl. destruct (startswith sep (String c s)) eqn:E.
  - apply startswith_app in E as [t Ht].
    destruct sep as [|a sep]; [done|]. simpl in Ht. injection Ht as -> ->.
    simpl. rewrite Nat.sub_0_r, split_from_skip, drop_chars_app.
    pose proof (split_from_nonempty (String a sep) 0 t) as Hne.
    assert (String.length t < n)%nat as Hlt.
    { subst n. simpl. rewrite string_length_app. lia. }
    rewrite (IH _ Hlt t eq_refl).
    destruct (split_from (String a sep) 0 t); [done|]. reflexivity.
  - pose proof (split_from_nonempty sep 0 s) as Hne.
    assert (String.length s < n)%nat as Hlt by (subst n; simpl; lia).
    pose proof (IH _ Hlt s eq_refl) as Hs.
    destruct (split_from sep 0 s) as [|p [|q l]]; [done|..];
      rewrite <- Hs; reflexivity.
Qed.

(** Replacing what a string does not hold changes nothing. *)
Lemma replace_without old new s :
  contains old s = false -> replace old new s = s.
Proof.
  unfold replace. induction s as [|c s IH]; [done|].
  cbn. intros [H1 H2]%orb_false_elim. by rewrite H1, (IH H2).
Qed.

End PyStrFacts.

(** ** The notes of a docstring (IntrospectorHelper) *)

Section StripParams.
Import PyStr Introspectors.

Lemma isspace_not_hyphen c : isspace c = true -> Ascii.eqb "-" c = false.
Proof. destruct (Ascii.eqb_spec "-" c) as [<-|]; [discriminate|done]. Qed.

Lemma contains_hyphens_lstrip s : contains "--" (lstrip s) = contains "--" s.
Proof.
  induction s as [|c s IH]; [reflexivity|].
  cbn [lstrip]. destruct (isspace c) eqn:E; [|reflexivity].
  rewrite IH. cbn.
  rewrite (isspace_not_hyphen _ E). reflexivity.
Qed.

Lemma startswith_hyphen_rstrip s : startswith "-" (rstrip s) = startswith "-" s.
Proof.
  destruct s as [|c s]; [reflexivity|]. cbn.
  destruct (rstrip s); [|reflexivity].
  destruct (isspace c) eqn:E; cbn; [|by destruct (Ascii.eqb "-" c)].
  by rewrite (isspace_not_hyphen _ E).
Qed.

Lemma contains_hyphens_rstrip s : contains "--" (rstrip s) = contains "--" s.
Proof.
  induction s as [|c s IH]; [reflexivity|].
  pose proof (startswith_hyphen_rstrip s) as Hs.
  cbn [rstrip]. destruct (rstrip s) as [|a t] eqn:Et.
  - cbn in IH, Hs. cbn. rewrite <- IH, <- Hs.
    destruct (isspace c); cbn; by destruct (Ascii.eqb "-" c).
  - change (contains "--" (String c (String a t)))
      with (startswith "--" (String c (String a t)) || contains "--" (String a t)).
    change (contains "--" (String c s))
      with (startswith "--" (String c s) || contains "--" s).
    rewrite IH. f_equal. cbn. destruct (Ascii.eqb "-" c); [|reflexivity].
    destruct s as [|b s]; cbn in Hs |- *; [by destruct (Ascii.eqb "-" a)|exact Hs].
Qed.

Lemma contains_hyphens_strip s : contains "--" (strip s) = contains "--" s.
Proof. unfold strip. by rewrite contains_hyphens_lstrip, contains_hyphens_rstrip. Qed.

Lemma find_cut_off_none index lines :
  Forall (fun line => contains "--" line = false) lines ->
  find_cut_off index lines = None.
Proof.
  intros H. revert index. induction H as [|line lines Hl _ IH]; intros index; [reflexivity|].
  cbn. by rewrite contains_hyphens_strip, Hl.
Qed.

Lemma find_cut_off_first index before line after :
  Forall (fun line => contains "--" line = false) before ->
  contains "--" line = true ->
  find_cut_off index (before ++ line :: after) = Some (index + length before)%nat.
Proof.
  intros H Hline. revert index.
  induction H as [|l before Hl _ IH]; intros index; cbn.
  - rewrite contains_hyphens_strip, Hline. f_equal. lia.
  - rewrite contains_hyphens_strip, Hl, IH. f_equal. lia.
Qed.

(** A parameter line of the docstring holds two hyphens. *)
Lemma parameter_line_has_hyphens line :
  contains " -- " line = true -> contains "--" line = true.
Proof.
  induction line as [|c line IH]; [discriminate|].
  cbn [contains]. intros [H|H]%orb_true_iff; [|by rewrite (IH H), orb_true_r].
  apply startswith_app in H as [t Ht]. injection Ht as -> ->.
  cbn. by rewrite orb_true_r.
Qed.

End StripParams.

(** C1 (as amended).  For every docstring, the notes that
    [strip_params_from_docstring] produces are cut at the first line of the
    trimmed docstring that holds two hyphens, with or without spaces around
    them: the lines before it are kept (a blank line as the line-break
    marker, joined by spaces) and no line at or after it appears; when no
    line holds two hyphens, every line is kept. *)
Theorem strip_params_cut_at_first_hyphens :
  forall (trim_docstring : string -> string) (docstring : string),
    let split_lines := PyStr.split LF (trim_docstring docstring) in
    let notes := Introspectors.strip_params_from_docstring trim_docstring docstring in
    (Forall (fun line => PyStr.contains "--" line = false) split_lines ->
     notes = notes_of_lines split_lines) /\
    (forall before line after,
        split_lines = before ++ line :: after ->
        Forall (fun line => PyStr.contains "--" line = false) before ->
        PyStr.contains "--" line = true ->
        notes = notes_of_lines before).
Proof.
  intros trim_docstring docstring split_lines notes. subst notes.
  unfold Introspectors.strip_params_from_docstring. fold split_lines. split.
  - intros H. by rewrite (find_cut_off_none _ _ H).
  - intros before line after -> Hbefore Hline.
    rewrite (find_cut_off_first 0 _ _ after Hbefore Hline).
    rewrite Nat.add_0_l. by rewrite take_app_length.
Qed.

(** C1, run on a docstring whose third line is the first with two hyphens. *)
Lemma strip_params_cut_at_first_hyphens_witness :
  Introspectors.strip_params_from_docstring Django.trim_docstring
    ("Lists the users." +:+ LF +:+ LF +:+ "page -- the page" +:+ LF +:+ "More.")
  = notes_of_lines ["Lists the users."; ""].
Proof.
  apply (proj2 (strip_params_cut_at_first_hyphens Django.trim_docstring _)
           ["Lists the users."; ""] "page -- the page" ["More."]).
  - reflexivity.
  - repeat constructor.
  - reflexivity.
Defined.

(** C1 as the specification words it fails: a line with two hyphens and no
    spaces around them holds no [" -- "], yet the notes stop before it. *)
Lemma strip_params_cut_without_spaces :
  let docstring := "intro" +:+ LF +:+ "x--y" +:+ LF +:+ "more" in
  let split_lines := PyStr.split LF (Django.trim_docstring docstring) in
  forallb (fun line => negb (PyStr.contains " -- " line)) split_lines = true /\
  notes_of_lines (lines_before " -- " split_lines) = "intro x--y more" /\
  Introspectors.strip_params_from_docstring Django.trim_docstring docstring = "intro".
Proof. repeat split; reflexivity. Qed.

(** ** Inline parameters of a docstring *)

Section DocstringParams.
Import PyStr Introspectors.

Lemma contains_first_byte c sub s :
  contains (String c sub) s = true -> contains (String c "") s = true.
Proof.
  induction s as [|x s IH]; [discriminate|].
  cbn. destruct (Ascii.eqb c x); [done|]. exact IH.
Qed.

Lemma not_contains_first_byte c sub s :
  contains (String c "") s = false -> contains (String c sub) s = false.
Proof.
  intros H. destruct (contains (String c sub) s) eqn:E; [|done].
  apply contains_first_byte in E. congruence.
Qed.

Lemma data_type_match_without_bracket s :
  contains "[" s = false -> Re.data_type_match s = None.
Proof.
  induction s as [|c s IH]; [reflexivity|].
  cbn. unfold Re.data_type_at. cbn [startswith].
  destruct (Ascii.eqb "[" c); [discriminate|].
  intros H. rewrite (IH H). by destruct (Re.is_LF c).
Qed.

(** A line in two pieces whose second piece has no bracket. *)
Lemma docstring_param_plain line name description :
  split " -- " line = [name; description] ->
  contains "[" description = false ->
  docstring_param line =
    Some (<["description" := VStr (strip description)]>
            {["name" := VStr (strip name)]}).
Proof.
  intros Hsplit Hplain. unfold docstring_param. rewrite Hsplit.
  rewrite !(not_contains_first_byte _ _ _ Hplain).
  by rewrite (data_type_match_without_bracket _ Hplain).
Qed.

(** The name and the description of the dict a line in two pieces gives. *)
Lemma docstring_param_pieces line name description :
  split " -- " line = [name; description] ->
  exists (param : Param) (rest : string),
    docstring_param line = Some param /\
    param !! "name" = Some (VStr (strip name)) /\
    param !! "description" = Some (VStr (strip rest)).
Proof.
  intros Hsplit. unfold docstring_param. rewrite Hsplit.
  destruct (contains "[paramType=form]" description);
    [|destruct (contains "[paramType=body]" description)];
    (destruct (contains "[required]" _));
    (destruct (Re.data_type_match _) as [[group1 group2]|]);
    eexists _, _; (split; [reflexivity|]);
    by simplify_map_eq.
Qed.

(** Every key of the dict a line in two pieces gives. *)
Lemma docstring_param_fields line name description :
  split " -- " line = [name; description] ->
  exists param : Param,
    docstring_param line = Some param /\
    param !! "name" = Some (VStr (strip name)) /\
    param !! "description" = Some (VStr (strip (without_tags description))) /\
    param !! "paramType" = param_type_tag description /\
    param !! "required" =
      (if contains "[required]" (without_param_type description)
       then Some (VBool true) else None) /\
    param !! "dataType" =
      (fun groups : string * string => VStr groups.2) <$>
      Re.data_type_match (without_required (without_param_type description)) /\
    (forall key,
        key ∉ ["name"; "description"; "paramType"; "required"; "dataType"] ->
        param !! key = None).
Proof.
  intros Hsplit. unfold docstring_param. rewrite Hsplit.
  unfold without_tags, without_data_type, without_required, without_param_type,
    param_type_tag.
  destruct (contains "[paramType=form]" description) eqn:Eform;
    [|destruct (contains "[paramType=body]" description) eqn:Ebody;
      [|rewrite (replace_without "[paramType=body]" "" description Ebody)]];
    (match goal with
     | |- context [contains "[required]" ?d] =>
         destruct (contains "[required]" d) eqn:Ereq;
         [|rewrite (replace_without "[required]" "" d Ereq)]
     end);
    (match goal with
     | |- context [Re.data_type_match ?d] =>
         destruct (Re.data_type_match d) as [[group1 group2]|]
     end);
    eexists; (split; [reflexivity|]);
    (repeat split; [by simplify_map_eq..|]);
    intros key Hkey; rewrite !not_elem_of_cons in Hkey;
    destruct Hkey as (? & ? & ? & ? & ? & _);
    by rewrite ?lookup_insert_ne, lookup_singleton_ne by done.
Qed.

Lemma docstring_param_some_split line :
  is_Some (docstring_param line) ->
  exists name description, split " -- " line = [name; description].
Proof.
  intros [param H]. unfold docstring_param in H.
  destruct (split " -- " line) as [|name [|description [|? ?]]]; try done.
  by exists name, description.
Qed.

End DocstringParams.

(** C2 (as amended).  A line of the docstring gives a parameter exactly when
    splitting it at [" -- "] leaves exactly two pieces, that is when it
    holds one occurrence of [" -- "] and no second one after it.  The line
    is then the first piece, [" -- "] and the second piece; the name is the
    first piece, stripped; the description is the second piece with the
    recognised tags removed ([without_tags]), stripped; [paramType],
    [required] and [dataType] are what the tags say, and the dict has no
    other key; a second piece without bracket is the description as it is.
    A line without [" -- "] gives no parameter. *)
Theorem docstring_param_two_pieces :
  forall line : string,
    (is_Some (Introspectors.docstring_param line) <->
     exists name description, PyStr.split " -- " line = [name; description]) /\
    (forall name description,
        PyStr.split " -- " line = [name; description] ->
        line = name +:+ " -- " +:+ description /\
        (exists param : Param,
            Introspectors.docstring_param line = Some param /\
            param !! "name" = Some (VStr (PyStr.strip name)) /\
            param !! "description" =
              Some (VStr (PyStr.strip (without_tags description))) /\
            param !! "paramType" = param_type_tag description /\
            param !! "required" =
              (if PyStr.contains "[required]" (without_param_type description)
               then Some (VBool true) else None) /\
            param !! "dataType" =
              (fun groups : string * string => VStr groups.2) <$>
              Re.data_type_match (without_required (without_param_type description)) /\
            (forall key,
                key ∉ ["name"; "description"; "paramType"; "required"; "dataType"] ->
                param !! key = None)) /\
        (PyStr.contains "[" description = false ->
         Introspectors.docstring_param line =
           Some (<["description" := VStr (PyStr.strip description)]>
                   {["name" := VStr (PyStr.strip name)]}))) /\
    (PyStr.contains " -- " line = false -> Introspectors.docstring_param line = None).
Proof.
  intros line. split; [|split].
  - split.
    + apply docstring_param_some_split.
    + intros (name & description & H).
      destruct (docstring_param_pieces _ _ _ H) as (param & _ & -> & _). eauto.
  - intros name description H. split; [|split].
    + rewrite <- (join_split " -- " line) at 1 by done. by rewrite H.
    + by apply (docstring_param_fields line name description).
    + by apply docstring_param_plain.
  - intros H. unfold Introspectors.docstring_param.
    by rewrite (split_without _ _ H).
Qed.

(** C2, run on a line with one [" -- "]. *)
Lemma docstring_param_two_pieces_witness :
  "page -- the page" = "page" +:+ " -- " +:+ "the page" /\
  Introspectors.docstring_param "page -- the page" =
    Some (<["description" := VStr "the page"]> {["name" := VStr "page"]}).
Proof.
  destruct (proj1 (proj2 (docstring_param_two_pieces "page -- the page"))
              "page" "the page" eq_refl) as (H1 & _ & H3).
  split; [exact H1|]. exact (H3 eq_refl).
Defined.

(** C2 as the specification words it fails: a line with two occurrences of
    [" -- "] gives no parameter, where splitting at the first occurrence
    alone would name it [a]. *)
Lemma docstring_param_second_occurrence :
  PyStr.contains " -- " "a -- b -- c" = true /\
  PyStr.split " -- " "a -- b -- c" = ["a"; "b"; "c"] /\
  Introspectors.docstring_param "a -- b -- c" = None.
Proof. repeat split; reflexivity. Qed.

Section DocstringLines.
Import PyStr Introspectors.

(** A parameter line of a text the method documents gives its dict. *)
Lemma documented_line_gives_param self doc line param :
  documents self doc ->
  line ∈ split LF doc ->
  docstring_param line = Some param ->
  param ∈ build_query_params_from_docstring self.
Proof.
  intros Hdoc Hline Hparam. unfold build_query_params_from_docstring.
  apply list_elem_of_omap. exists line. split; [|exact Hparam].
  change (?a +:+ LF +:+ ?b) with (a +:+ (LF +:+ b)).
  rewrite split_LF_app. apply elem_of_app.
  destruct Hdoc as [Hdoc| ->]; [left|by right].
  by rewrite Hdoc.
Qed.

End DocstringLines.

(** C3.  For every docstring with the line
    ["foo -- bar [required][dataType=int]"], the inline parameters hold the
    dict with name [foo], [required] true, [dataType] [int] and description
    [bar], the tags removed; the line with the two tags in the other order
    gives the same dict. *)
Theorem foo_line_gives_foo_param :
  forall (self : Introspectors.BaseMethodIntrospector) (doc line : string),
    documents self doc ->
    line ∈ foo_lines ->
    line ∈ PyStr.split LF doc ->
    Introspectors.docstring_param line = Some foo_param /\
    foo_param ∈ Introspectors.build_query_params_from_docstring self.
Proof.
  intros self doc line Hdoc Hfoo Hline.
  assert (Introspectors.docstring_param line = Some foo_param) as Hparam.
  { unfold foo_lines in Hfoo.
    apply elem_of_cons in Hfoo as [->|Hfoo]; [by vm_compute|].
    apply list_elem_of_singleton in Hfoo as ->. by vm_compute. }
  split; [exact Hparam|].
  by apply (documented_line_gives_param self doc line).
Qed.

(** ** The parameter merge of [get_parameters] *)

Section Merge.
Import PyStr Introspectors.

Implicit Types (params : list Param) (param doc_param : Param) (name : pyval).

Lemma place_of_bounds name index params place :
  place_of name index params = Some place ->
  (index <= place < index + length params)%nat.
Proof.
  revert index. induction params as [|param rest IH]; intros index; cbn; [done|].
  destruct (place_of name (S index) rest) eqn:E.
  - intros [= ->]. apply IH in E. lia.
  - case_decide; [|done]. intros [= ->]. lia.
Qed.

Lemma place_of_named name index params place :
  place_of name index params = Some place ->
  exists param, params !! (place - index)%nat = Some param /\ param_named name param.
Proof.
  revert index. induction params as [|param rest IH]; intros index; cbn; [done|].
  destruct (place_of name (S index) rest) eqn:E.
  - intros [= ->]. pose proof (place_of_bounds _ _ _ _ E).
    destruct (IH _ E) as (p & Hp & Hn). exists p. split; [|done].
    replace (place - index)%nat with (S (place - S index)) by lia. done.
  - case_decide; [|done]. intros [= ->]. rewrite Nat.sub_diag. eauto.
Qed.




(** What [build_params_map] returns: for a name, its last place. *)
Lemma build_params_map_lookup index params (acc params_map : gmap pyval nat) :
  build_params_map index params acc = Return params_map ->
  forall name,
    params_map !! name =
    match place_of name index params with
    | Some place => Some place
    | None => acc !! name
    end.
Proof.
  revert index acc. induction params as [|param rest IH]; intros index acc; cbn.
  - by intros [= ->].
  - unfold getitem. destruct (param !! "name") as [n|] eqn:En; [|done]. cbn.
    intros H name. rewrite (IH _ _ H name).
    destruct (place_of name (S index) rest); [done|].
    destruct (decide (n = name)) as [->|Hne].
    + rewrite decide_True by done. by rewrite lookup_insert_eq.
    + rewrite decide_False by congruence. by rewrite lookup_insert_ne.
Qed.

Lemma build_params_map_returns index params (acc : gmap pyval nat) :
  Forall (fun param => is_Some (param !! "name")) params ->
  exists params_map, build_params_map index params acc = Return params_map.
Proof.
  intros H. revert index acc.
  induction H as [|param rest [n Hn] _ IH]; intros index acc; cbn; [eauto|].
  unfold getitem. rewrite Hn. cbn. apply IH.
Qed.

End Merge.

Section MergeLoop.
Import PyStr Introspectors.

Implicit Types (params : list Param) (param doc_param : Param) (name : pyval).

Variable params : list Param.
Variable params_map : gmap pyval nat.
Hypothesis params_map_places :
  forall name, params_map !! name = place_of name 0 params.

Local Abbreviation merge_invariant := (merge_invariant params params_map).

Lemma merge_invariant_start : merge_invariant params.
Proof. exists params, []. by rewrite app_nil_r. Qed.

Lemma params_map_place name place :
  params_map !! name = Some place ->
  (place < length params)%nat /\
  exists param, params !! place = Some param /\ param_named name param.
Proof.
  rewrite params_map_places. intros H. pose proof (place_of_bounds _ _ _ _ H).
  split; [lia|]. destruct (place_of_named _ _ _ _ H) as (p & Hp & Hn).
  rewrite Nat.sub_0_r in Hp. eauto.
Qed.

Lemma merge_invariant_place state name place :
  merge_invariant state -> params_map !! name = Some place ->
  exists old, state !! place = Some old /\ param_named name old.
Proof.
  intros (kept & appended & -> & Hnames & _) H.
  destruct (params_map_place _ _ H) as (Hlt & p & Hp & Hn).
  assert (names_of kept !! place = Some (Some name)) as Hk.
  { rewrite Hnames. unfold names_of. rewrite list_lookup_fmap, Hp. by rewrite <- Hn. }
  unfold names_of in Hk. rewrite list_lookup_fmap in Hk.
  destruct (kept !! place) as [old|] eqn:E; [|done].
  exists old. split; [|by injection Hk].
  by apply lookup_app_l_Some.
Qed.

Lemma merge_invariant_update state name place doc_param :
  merge_invariant state -> params_map !! name = Some place ->
  param_named name doc_param ->
  merge_invariant (alter (fun param => update param doc_param) place state).
Proof.
  intros Hinv H Hd. destruct (merge_invariant_place _ _ _ Hinv H) as (old & Hold & Hn).
  destruct Hinv as (kept & appended & -> & Hnames & Happ).
  destruct (params_map_place _ _ H) as (Hlt & _).
  assert (length kept = length params) as Hlen.
  { apply (f_equal length) in Hnames. unfold names_of in Hnames.
    by rewrite !length_fmap in Hnames. }
  exists (alter (fun param => update param doc_param) place kept), appended.
  split; [by rewrite alter_app_l by lia|]. split; [|done].
  rewrite <- Hnames. unfold names_of. apply list_eq. intros j.
  rewrite !list_lookup_fmap, list_lookup_alter.
  case_decide as Hj; [subst j|done].
  rewrite lookup_app_l in Hold by lia. rewrite Hold. cbn. f_equal.
  unfold update. rewrite (lookup_union_l' doc_param old "name") by (rewrite Hd; eauto).
  by rewrite Hd, Hn.
Qed.

(** One turn of the loop on a dict whose name the map knows. *)
Lemma merge_doc_param_known state name place doc_param :
  param_named name doc_param -> params_map !! name = Some place ->
  merge_doc_param params_map state doc_param =
    Return (alter (fun param => update param doc_param) place state).
Proof.
  intros Hd H. unfold merge_doc_param, getitem. rewrite Hd. cbn. by rewrite H.
Qed.

(** One turn of the loop on a dict whose name the map does not know. *)
Lemma merge_doc_param_new state name doc_param :
  param_named name doc_param -> params_map !! name = None ->
  exists appended,
    merge_doc_param params_map state doc_param = Return (state ++ [appended]) /\
    param_named name appended.
Proof.
  intros Hd H. unfold merge_doc_param, getitem. rewrite Hd. cbn. rewrite H.
  eexists. split; [reflexivity|]. unfold param_named.
  repeat case_bool_decide; by simplify_map_eq.
Qed.

Lemma merge_doc_param_invariant state name doc_param :
  merge_invariant state -> param_named name doc_param ->
  exists next,
    merge_doc_param params_map state doc_param = Return next /\
    merge_invariant next /\
    (forall place old,
        params_map !! name <> Some place ->
        state !! place = Some old -> next !! place = Some old).
Proof.
  intros Hinv Hd. destruct (params_map !! name) as [place|] eqn:E.
  - eexists. split; [by apply (merge_doc_param_known _ name)|].
    split; [by apply (merge_invariant_update _ name)|].
    intros j old Hj Hold. rewrite list_lookup_alter_ne by congruence. done.
  - destruct (merge_doc_param_new state _ _ Hd E) as (appended & -> & Hn).
    eexists. split; [reflexivity|]. split.
    + destruct Hinv as (kept & app & -> & Hnames & Happ).
      exists kept, (app ++ [appended]). rewrite app_assoc. split; [done|].
      split; [done|]. apply Forall_app. split; [done|].
      constructor; [|done]. eauto.
    + intros j old _ Hold. by apply lookup_app_l_Some.
Qed.

(** The whole loop. *)
Lemma merge_doc_params_invariant docstring_params state :
  Forall (fun param => is_Some (param !! "name")) docstring_params ->
  merge_invariant state ->
  exists out,
    merge_doc_params params_map state docstring_params = Return out /\
    merge_invariant out /\
    (forall place old,
        Forall (fun doc_param => forall name,
                    param_named name doc_param -> params_map !! name <> Some place)
               docstring_params ->
        state !! place = Some old -> out !! place = Some old).
Proof.
  intros H. revert state.
  induction H as [|doc_param rest [name Hn] _ IH]; intros state Hinv; cbn.
  - eauto.
  - destruct (merge_doc_param_invariant _ _ _ Hinv Hn) as (next & -> & Hnext & Hsame).
    cbn. destruct (IH _ Hnext) as (out & -> & Hout & Hrest).
    eexists. split; [reflexivity|]. split; [done|].
    intros place old Hall Hold. inversion Hall as [|? ? Hd Hall']; subst.
    apply Hrest; [done|]. apply Hsame; [|done]. by apply Hd.
Qed.


End MergeLoop.

Section GetParameters.
Import PyStr Introspectors.

Lemma build_path_parameters_named self :
  Forall (fun param : Param => is_Some (param !! "name")) (build_path_parameters self).
Proof.
  unfold build_path_parameters. apply Forall_fmap, list.Forall_forall.
  intros token _. cbn. eexists. by simplify_map_eq.
Qed.

Lemma form_parameter_named name field (param : Param) :
  form_parameter name field = Some param -> param !! "name" = Some (VStr name).
Proof.
  unfold form_parameter. destruct (default false (read_only field)); [done|].
  intros [= <-]. by simplify_map_eq.
Qed.

Lemma build_form_parameters_named self :
  Forall (fun param : Param => is_Some (param !! "name")) (build_form_parameters self).
Proof.
  unfold build_form_parameters. destruct (get_serializer_class (parent self)); [|done].
  apply list.Forall_forall. intros param ([name field] & _ & H)%list_elem_of_omap.
  rewrite (form_parameter_named _ _ _ H). eauto.
Qed.

Lemma build_body_parameters_named self (param : Param) :
  build_body_parameters self = Some param -> is_Some (param !! "name").
Proof.
  unfold build_body_parameters.
  destruct (get_serializer_name _); [|done]. intros [= <-].
  eexists. by simplify_map_eq.
Qed.

Lemma collected_parameters_named self :
  Forall (fun param : Param => is_Some (param !! "name")) (collected_parameters self).
Proof.
  unfold collected_parameters. cbn [app].
  pose proof (build_path_parameters_named self).
  pose proof (build_form_parameters_named self).
  pose proof (build_body_parameters_named self).
  case_bool_decide; [|done].
  destruct (build_form_parameters self); [|by apply Forall_app].
  destruct (build_body_parameters self);
    rewrite ?app_nil_r; [apply Forall_app|]; eauto.
Qed.

Lemma docstring_params_named self :
  Forall (fun param : Param => is_Some (param !! "name"))
         (build_query_params_from_docstring self).
Proof.
  apply list.Forall_forall. intros param (line & _ & H)%list_elem_of_omap.
  pose proof H as Hsome. apply mk_is_Some in Hsome.
  apply docstring_param_some_split in Hsome as (name & description & Hsplit).
  destruct (docstring_param_pieces _ _ _ Hsplit) as (p & rest & Hp & Hname & _).
  rewrite H in Hp. injection Hp as ->. eauto.
Qed.

(** With the map of [params] built, the last block of [get_parameters] is
    the loop over the docstring parameters. *)
Lemma merge_docstring_params_loop params params_map docstring_params :
  build_params_map 0 params ∅ = Return params_map ->
  merge_docstring_params params docstring_params =
  merge_doc_params params_map params docstring_params.
Proof.
  intros H. unfold merge_docstring_params.
  destruct docstring_params; [done|]. by rewrite H.
Qed.

Lemma params_map_of_collected self :
  exists params_map,
    build_params_map 0 (collected_parameters self) ∅ = Return params_map /\
    forall name, params_map !! name = place_of name 0 (collected_parameters self).
Proof.
  destruct (build_params_map_returns 0 _ ∅ (collected_parameters_named self))
    as [params_map H].
  exists params_map. split; [done|]. intros name.
  rewrite (build_params_map_lookup _ _ _ _ H name).
  by destruct (place_of name 0 _).
Qed.

(** [get_parameters] raises nothing. *)
Lemma get_parameters_returns self :
  exists params, get_parameters self = Return params.
Proof.
  destruct (params_map_of_collected self) as (params_map & Hmap & Hplaces).
  unfold get_parameters. rewrite (merge_docstring_params_loop _ _ _ Hmap).
  destruct (merge_doc_params_invariant _ _ Hplaces _ _
              (docstring_params_named self) (merge_invariant_start _ _))
    as (out & -> & _). eauto.
Qed.

End GetParameters.



Section MergeNames.
Import PyStr Introspectors.

Variable params : list Param.
Variable params_map : gmap pyval nat.
Hypothesis params_map_places :
  forall name, params_map !! name = place_of name 0 params.

Local Abbreviation merge_invariant := (merge_invariant params params_map).

(** An update by a dict of the same name changes no name. *)
Lemma names_of_update (state : list Param) (place : nat) (old doc_param : Param) name :
  state !! place = Some old -> param_named name old -> param_named name doc_param ->
  names_of (alter (fun param => update param doc_param) place state) = names_of state.
Proof.
  intros Hold Hn Hd. unfold names_of. apply list_eq. intros j.
  rewrite !list_lookup_fmap, list_lookup_alter.
  case_decide as Hj; [subst j|done]. rewrite Hold. cbn. f_equal.
  unfold update. rewrite (lookup_union_l' doc_param old "name") by (rewrite Hd; eauto).
  by rewrite Hd, Hn.
Qed.

Lemma merge_doc_param_names (state : list Param) name (doc_param : Param) :
  merge_invariant state -> param_named name doc_param ->
  exists next,
    merge_doc_param params_map state doc_param = Return next /\
    merge_invariant next /\
    names_of state `prefix_of` names_of next /\
    Some name ∈ names_of next.
Proof.
  intros Hinv Hd.
  destruct (merge_doc_param_invariant _ _ params_map_places _ _ _ Hinv Hd)
    as (next & Hnext & Hinv' & _).
  exists next. split; [done|]. split; [done|].
  destruct (params_map !! name) as [place|] eqn:E.
  - rewrite (merge_doc_param_known params_map state _ _ _ Hd E) in Hnext.
    injection Hnext as <-.
    destruct (merge_invariant_place _ _ params_map_places _ _ _ Hinv E)
      as (old & Hold & Hn).
    rewrite (names_of_update _ _ _ _ _ Hold Hn Hd). split; [done|].
    unfold names_of. apply list_elem_of_fmap. exists old. split; [done|].
    by eapply list_elem_of_lookup_2.
  - destruct (merge_doc_param_new params_map state _ _ Hd E) as (appended & Hstep & Hn).
    rewrite Hstep in Hnext. injection Hnext as <-.
    unfold names_of. rewrite fmap_app. split; [by apply prefix_app_r|].
    apply elem_of_app. right. cbn. rewrite Hn. by left.
Qed.

(** Every docstring parameter leaves a parameter of its name. *)
Lemma merge_doc_params_names (docstring_params state : list Param) :
  Forall (fun param : Param => is_Some (param !! "name")) docstring_params ->
  merge_invariant state ->
  exists out,
    merge_doc_params params_map state docstring_params = Return out /\
    names_of state `prefix_of` names_of out /\
    (forall doc_param : Param,
        doc_param ∈ docstring_params -> doc_param !! "name" ∈ names_of out).
Proof.
  intros H. revert state.
  induction H as [|doc_param rest [name Hn] _ IH]; intros state Hinv; cbn.
  - exists state. split; [done|]. split; [done|]. by intros ? ?%elem_of_nil.
  - destruct (merge_doc_param_names _ _ _ Hinv Hn) as (next & -> & Hnext & Hpre & Hin).
    cbn. destruct (IH _ Hnext) as (out & -> & Hpre' & Hall).
    exists out. split; [done|]. split; [by etrans|].
    intros d [->|Hd]%elem_of_cons; [|by apply Hall].
    rewrite Hn. destruct Hpre' as [more ->]. apply elem_of_app. by left.
Qed.

End MergeNames.

(** C6.  In [get_parameters], before the docstring parameters are merged:
    a form parameter is in the list only when the HTTP method is neither
    GET nor DELETE, and it is then one of the form parameters built; a body
    parameter is in the list only when moreover no form parameter was
    built and it is the body parameter built.  With a method other than
    GET and DELETE the list is the path parameters, then the form
    parameters when there are some, else the body parameter when there is
    one; with GET or DELETE it is the path parameters alone. *)
Theorem form_and_body_parameters_appended :
  forall self : Introspectors.BaseMethodIntrospector,
    let params := Introspectors.collected_parameters self in
    let path_params := Introspectors.build_path_parameters self in
    let form_params := Introspectors.build_form_parameters self in
    let body_params := Introspectors.build_body_parameters self in
    (forall param : Param,
        param ∈ params -> param !! "paramType" = Some (VStr "form") ->
        (Introspectors.get_http_method self ∉ ["GET"; "DELETE"]) /\ param ∈ form_params) /\
    (forall param : Param,
        param ∈ params -> param !! "paramType" = Some (VStr "body") ->
        (Introspectors.get_http_method self ∉ ["GET"; "DELETE"]) /\
        form_params = [] /\ body_params = Some param) /\
    (Introspectors.get_http_method self ∈ ["GET"; "DELETE"] -> params = path_params) /\
    (Introspectors.get_http_method self ∉ ["GET"; "DELETE"] ->
     form_params <> [] -> params = path_params ++ form_params) /\
    (Introspectors.get_http_method self ∉ ["GET"; "DELETE"] ->
     form_params = [] -> params = path_params ++ option_list body_params) /\
    Introspectors.get_parameters self =
      Introspectors.merge_docstring_params params
        (Introspectors.build_query_params_from_docstring self).
Proof.
  intros self params path_params form_params body_params.
  assert (forall param : Param, param ∈ path_params ->
            param !! "paramType" = Some (VStr "path")) as Hpath.
  { intros param (token & -> & _)%list_elem_of_fmap.
    by simplify_map_eq. }
  assert (forall param : Param, param ∈ form_params ->
            param !! "paramType" = Some (VStr "form")) as Hform.
  { subst form_params. unfold Introspectors.build_form_parameters.
    destruct (Introspectors.get_serializer_class _); [|by intros ? ?%elem_of_nil].
    intros param ([name field] & _ & H)%list_elem_of_omap.
    unfold Introspectors.form_parameter in H. cbn [fst snd] in H.
    destruct (default false (read_only field)); [done|].
    injection H as <-. by simplify_map_eq. }
  assert (forall param : Param, body_params = Some param ->
            param !! "paramType" = Some (VStr "body")) as Hbody.
  { subst body_params. unfold Introspectors.build_body_parameters.
    destruct (Introspectors.get_serializer_name _); [|done].
    intros param [= <-]. by simplify_map_eq. }
  assert (params =
          if bool_decide (Introspectors.get_http_method self ∉ ["GET"; "DELETE"])
          then match form_params, body_params with
               | [], Some body => path_params ++ [body]
               | _, _ => path_params ++ form_params
               end
          else path_params) as Hparams.
  { subst params. unfold Introspectors.collected_parameters.
    fold path_params form_params body_params. cbn [app].
    case_bool_decide; [|done].
    destruct form_params; [|done]. destruct body_params; by rewrite ?app_nil_r. }
  repeat split.
  - rewrite Hparams in H. case_bool_decide; [done|].
    apply Hpath in H. congruence.
  - rewrite Hparams in H. case_bool_decide as Hm.
    + destruct form_params as [|form rest] eqn:Ef.
      * destruct body_params as [body|] eqn:Eb; rewrite ?app_nil_r in H.
        -- apply elem_of_app in H as [H|H]; [apply Hpath in H; congruence|].
           apply list_elem_of_singleton in H as ->.
           specialize (Hbody _ eq_refl). congruence.
        -- apply Hpath in H. congruence.
      * apply elem_of_app in H as [H|H]; [apply Hpath in H; congruence|done].
    + apply Hpath in H. congruence.
  - rewrite Hparams in H. case_bool_decide; [done|].
    apply Hpath in H. congruence.
  - rewrite Hparams in H. case_bool_decide; [|apply Hpath in H; congruence].
    destruct form_params as [|form rest]; [done|].
    apply elem_of_app in H as [H|H]; [apply Hpath in H; congruence|].
    apply Hform in H. congruence.
  - rewrite Hparams in H. case_bool_decide; [|apply Hpath in H; congruence].
    destruct form_params as [|form rest];
      [|apply elem_of_app in H as [H|H]; [apply Hpath in H|apply Hform in H]; congruence].
    destruct body_params as [body|]; rewrite ?app_nil_r in H;
      [|apply Hpath in H; congruence].
    apply elem_of_app in H as [H|H]; [apply Hpath in H; congruence|].
    by apply list_elem_of_singleton in H as ->.
  - intros H. rewrite Hparams. by rewrite bool_decide_false by (by intros ?).
  - intros H Hne. rewrite Hparams, bool_decide_true by done.
    by destruct form_params.
  - intros H ->. rewrite Hparams, bool_decide_true by done.
    destruct body_params; by rewrite ?app_nil_r.
Qed.

(** C6, run on the example view: POST lists the form parameter [x] and no
    body parameter; GET lists the path parameters alone. *)
Lemma form_and_body_parameters_appended_witness :
  Introspectors.collected_parameters Example.POST =
    Introspectors.build_path_parameters Example.POST ++
    Introspectors.build_form_parameters Example.POST /\
  Introspectors.collected_parameters Example.GET =
    Introspectors.build_path_parameters Example.GET.
Proof.
  split.
  - apply (form_and_body_parameters_appended Example.POST).
    + apply (bool_decide_unpack _). by vm_compute.
    + by vm_compute.
  - apply (form_and_body_parameters_appended Example.GET).
    apply (bool_decide_unpack _). by vm_compute.
Defined.

(** C3, run on the example view, whose POST docstring has the line. *)
Lemma foo_line_gives_foo_param_witness :
  Introspectors.docstring_param "foo -- bar [required][dataType=int]" = Some foo_param /\
  foo_param ∈ Introspectors.build_query_params_from_docstring Example.POST.
Proof.
  apply (foo_line_gives_foo_param Example.POST Example.post_doc).
  - by left.
  - by left.
  - apply (bool_decide_unpack _). by vm_compute.
Defined.

(** C10.  The inline parameters of a method are read from the docstring of
    the method and then from the description of the view class: for every
    method of a view, a line of the class description that is a parameter
    line gives its dict among the docstring parameters of that method,
    whatever the docstring of the method holds, and [get_parameters]
    returns a list with a parameter of that name. *)
Theorem class_description_lines_give_params :
  forall (self : Introspectors.BaseMethodIntrospector) (line : string) (param : Param),
    line ∈ PyStr.split LF
             (view_description (Introspectors.callback (Introspectors.parent self))) ->
    Introspectors.docstring_param line = Some param ->
    Introspectors.build_query_params_from_docstring self =
      omap Introspectors.docstring_param
           (PyStr.split LF (default "" (Introspectors.retrieve_docstring self)) ++
            PyStr.split LF
              (view_description (Introspectors.callback (Introspectors.parent self)))) /\
    param ∈ Introspectors.build_query_params_from_docstring self /\
    exists out : list Param,
      Introspectors.get_parameters self = Return out /\
      param !! "name" ∈ names_of out.
Proof.
  intros self line param Hline Hparam.
  assert (param ∈ Introspectors.build_query_params_from_docstring self) as Hin.
  { apply (documented_line_gives_param self
             (view_description (Introspectors.callback (Introspectors.parent self)))
             line); [by right|done..]. }
  split.
  { unfold Introspectors.build_query_params_from_docstring.
    change (?a +:+ LF +:+ ?b) with (a +:+ (LF +:+ b)). by rewrite split_LF_app. }
  split; [exact Hin|].
  destruct (params_map_of_collected self) as (params_map & Hmap & Hplaces).
  destruct (merge_doc_params_names _ _ Hplaces _ _
              (docstring_params_named self) (merge_invariant_start _ _))
    as (out & Hout & _ & Hall).
  exists out. split; [|by apply Hall].
  unfold Introspectors.get_parameters.
  by rewrite (merge_docstring_params_loop _ _ _ Hmap).
Qed.

(** C10, run on the example view: GET has an empty docstring, and the line
    [page -- the page] of the class description gives it the parameter
    [page]. *)
Lemma class_description_lines_give_params_witness :
  ({[ "name" := VStr "page"; "description" := VStr "the page" ]} : Param)
    ∈ Introspectors.build_query_params_from_docstring Example.GET /\
  exists out : list Param,
    Introspectors.get_parameters Example.GET = Return out /\
    Some (VStr "page") ∈ names_of out.
Proof.
  destruct (class_description_lines_give_params Example.GET "page -- the page"
              {[ "name" := VStr "page"; "description" := VStr "the page" ]})
    as (_ & Hin & out & Hout & Hname).
  - apply (bool_decide_unpack _). by vm_compute.
  - by vm_compute.
  - split; [exact Hin|]. exists out. split; [exact Hout|]. exact Hname.
Defined.

(** ** The parameters of the path *)

Section PathParameters.
Import PyStr.

Lemma brace_group_token token rest :
  contains "}" token = false ->
  Re.brace_group (token +:+ "}" +:+ rest) = Some (token, rest).
Proof.
  induction token as [|c token IH]; [reflexivity|].
  cbn. destruct (Ascii.eqb_spec "}" c) as [<-|Hc]; [discriminate|].
  intros H. change (String c token +:+ "}" +:+ rest)
    with (String c (token +:+ "}" +:+ rest)).
  cbn [Re.brace_group]. rewrite (IH H).
  destruct (Ascii.eqb_spec c "}") as [->|_]; [done|reflexivity].
Qed.

Lemma brace_group_none s : contains "}" s = false -> Re.brace_group s = None.
Proof.
  induction s as [|c s IH]; [done|].
  cbn. rewrite (Ascii.eqb_sym c "}"). destruct (Ascii.eqb "}" c); [done|].
  intros H. by rewrite (IH H).
Qed.

Lemma closing_brace_dropped k s :
  contains "}" s = false -> contains "}" (Re.drop_chars k s) = false.
Proof.
  revert k. induction s as [|c s IH]; intros [|k]; try done.
  cbn [Re.drop_chars]. intros H. apply IH.
  cbn in H. by destruct (Ascii.eqb "}" c).
Qed.

Lemma findall_path_tokens_skip k s :
  Re.findall_path_tokens_from k s =
  Re.findall_path_tokens_from 0 (Re.drop_chars k s).
Proof.
  revert k. induction s as [|c s IH]; intros [|k]; try reflexivity.
  cbn [Re.findall_path_tokens_from Re.drop_chars]. apply IH.
Qed.

Lemma drop_chars_token token rest :
  Re.drop_chars (String.length token + 2) (String "{" (token +:+ "}" +:+ rest)) = rest.
Proof.
  replace (String.length token + 2)%nat with (S (String.length token + 1)) by lia.
  cbn. induction token as [|c token IH]; [reflexivity|]. exact IH.
Qed.

Lemma findall_path_tokens_step c s :
  Re.findall_path_tokens_from 0 (String c s) =
  match Re.path_token_at (String c s) with
  | Some token => token :: Re.findall_path_tokens_from (String.length token + 2) s
  | None => Re.findall_path_tokens_from 0 s
  end.
Proof. reflexivity. Qed.

(** Without closing brace there is no match. *)
Lemma findall_path_tokens_unclosed s :
  contains "}" s = false -> Re.findall_path_tokens_from 0 s = [].
Proof.
  induction s as [|c s IH]; [done|]. intros H.
  rewrite findall_path_tokens_step. unfold Re.path_token_at.
  rewrite (brace_group_none _ (closing_brace_dropped 2 _ H)).
  assert (contains "}" s = false) as Hs.
  { cbn in H. by destruct (Ascii.eqb "}" c). }
  rewrite (IH Hs). by destruct (startswith "/{" (String c s)).
Qed.

(** A text without a slash directly before an opening brace holds no match,
    and no match begins in it. *)
Lemma findall_path_tokens_text text rest :
  contains "/{" text = false ->
  Re.findall_path_tokens_from 0 (text +:+ "/{" +:+ rest) =
  Re.findall_path_tokens_from 0 (String "/" (String "{" rest)).
Proof.
  intros Htext. induction text as [|c text IH]; [reflexivity|].
  change (String c text +:+ "/{" +:+ rest) with (String c (text +:+ "/{" +:+ rest)).
  rewrite findall_path_tokens_step.
  cbn [contains] in Htext. apply orb_false_elim in Htext as [Hc Htext].
  assert (Re.path_token_at (String c (text +:+ "/{" +:+ rest)) = None) as ->.
  { unfold Re.path_token_at.
    change (startswith "/{" (String c (text +:+ "/{" +:+ rest)))
      with (if Ascii.eqb "/" c then startswith "{" (text +:+ "/{" +:+ rest) else false).
    change (startswith "/{" (String c text))
      with (if Ascii.eqb "/" c then startswith "{" text else false) in Hc.
    destruct (Ascii.eqb "/" c); [|done].
    destruct text as [|x text]; [reflexivity|].
    change (String x text +:+ ?r) with (String x (text +:+ r)).
    cbn [startswith] in Hc |- *. by rewrite Hc. }
  by apply IH.
Qed.

(** The match after such a text is the first one. *)
Lemma findall_path_tokens_segment text token rest :
  contains "/{" text = false -> contains "}" token = false ->
  Re.findall_path_tokens (text +:+ "/{" +:+ token +:+ "}" +:+ rest) =
  token :: Re.findall_path_tokens rest.
Proof.
  unfold Re.findall_path_tokens. intros Htext Htoken.
  rewrite (findall_path_tokens_text text _ Htext).
  rewrite findall_path_tokens_step. unfold Re.path_token_at.
  cbn [startswith Re.drop_chars]. rewrite !Ascii.eqb_refl.
  rewrite (brace_group_token _ _ Htoken). cbn [fmap option_fmap option_map fst].
  f_equal. rewrite findall_path_tokens_skip.
  by rewrite (drop_chars_token token rest).
Qed.

Lemma findall_path_tokens_without s :
  contains "/{" s = false -> Re.findall_path_tokens s = [].
Proof.
  unfold Re.findall_path_tokens. induction s as [|c s IH]; [done|].
  cbn [contains Re.findall_path_tokens_from].
  intros [H1 H2]%orb_false_elim. unfold Re.path_token_at. rewrite H1. by apply IH.
Qed.

Lemma startswith_contains sub s : startswith sub s = true -> contains sub s = true.
Proof. destruct s; cbn [contains]; intros ->; done. Qed.

Lemma findall_path_tokens_tail tail :
  closed_tail tail -> Re.findall_path_tokens tail = [].
Proof.
  intros [H|(text & rest & -> & Htext & Hrest)]; [by apply findall_path_tokens_without|].
  unfold Re.findall_path_tokens. rewrite (findall_path_tokens_text text _ Htext).
  by apply findall_path_tokens_unclosed.
Qed.

Lemma findall_path_tokens_segments segments tail :
  Forall plain_segment segments -> closed_tail tail ->
  Re.findall_path_tokens (path_of_segments segments tail) = segments.*2.
Proof.
  intros H Htail. induction H as [|[text token] segments [Ht Hk] _ IH]; cbn.
  - by apply findall_path_tokens_tail.
  - change (text +:+ String "/" (String "{" (token +:+ String "}" ?r)))
      with (text +:+ "/{" +:+ token +:+ "}" +:+ r).
    rewrite (findall_path_tokens_segment _ _ _ Ht Hk). by rewrite IH.
Qed.

Lemma startswith_app_r sub a b :
  startswith sub a = true -> startswith sub (a +:+ b) = true.
Proof.
  revert a. induction sub as [|x sub IH]; intros a; [done|].
  destruct a as [|y a]; [done|].
  change (String y a +:+ b) with (String y (a +:+ b)). cbn [startswith].
  destruct (Ascii.eqb x y); [apply IH|done].
Qed.

(** The first occurrence of what a string holds. *)
Lemma first_occurrence sub s :
  sub <> "" -> contains sub s = true ->
  exists text rest, s = text +:+ sub +:+ rest /\ contains sub text = false.
Proof.
  intros Hsub. induction s as [|c s IH].
  - intros H%startswith_empty. done.
  - cbn [contains]. destruct (startswith sub (String c s)) eqn:E.
    + intros _. apply startswith_app in E as [rest ->].
      exists "", rest. split; [done|]. cbn. by destruct sub.
    + intros H. destruct (IH H) as (text & rest & -> & Htext).
      exists (String c text), rest. split; [done|].
      cbn [contains]. rewrite Htext, orb_false_r.
      destruct (startswith sub (String c text)) eqn:E'; [|done].
      apply (startswith_app_r _ _ (sub +:+ rest)) in E'.
      change (String c text +:+ sub +:+ rest)
        with (String c (text +:+ sub +:+ rest)) in E'. congruence.
Qed.

(** Every path is made of such pieces and such a tail. *)
Lemma path_decomposes path :
  exists segments tail,
    path = path_of_segments segments tail /\
    Forall plain_segment segments /\ closed_tail tail.
Proof.
  remember (String.length path) as n eqn:Hn. revert path Hn.
  induction n as [n IH] using lt_wf_ind. intros path Hn.
  destruct (contains "/{" path) eqn:E; [|by exists [], path; repeat split; [|left]].
  destruct (first_occurrence "/{" path ltac:(done) E) as (text & rest & Hpath & Htext).
  destruct (contains "}" rest) eqn:Erest.
  - destruct (first_occurrence "}" rest ltac:(done) Erest)
      as (token & rest' & Hrest & Htoken).
    destruct (IH (String.length rest')) with (path := rest')
      as (segments & tail & Hrest' & Hsegments & Htail); [|done|].
    { subst n path rest. rewrite !string_length_app. cbn. lia. }
    exists ((text, token) :: segments), tail. split; [|split; [|done]].
    + cbn. by rewrite <- Hrest', Hpath, Hrest.
    + by constructor.
  - exists [], path. split; [done|]. split; [done|].
    right. by exists text, rest.
Qed.

Lemma string_app_assoc (a b c : string) : (a +:+ b) +:+ c = a +:+ (b +:+ c).
Proof.
  induction a as [|x a IH]; [done|].
  change (String x a +:+ b) with (String x (a +:+ b)).
  change (String x (a +:+ b) +:+ c) with (String x ((a +:+ b) +:+ c)).
  change (String x a +:+ (b +:+ c)) with (String x (a +:+ (b +:+ c))).
  by rewrite IH.
Qed.

(** A token of the pieces stands in the path between a slash with an
    opening brace and a closing brace. *)
Lemma segment_token_in_path segments tail token :
  token ∈ segments.*2 ->
  exists before after,
    path_of_segments segments tail = before +:+ "/{" +:+ token +:+ "}" +:+ after.
Proof.
  induction segments as [|[text tok] segments IH]; [by intros ?%elem_of_nil|].
  cbn [fmap list_fmap snd path_of_segments].
  intros [->|Hin]%elem_of_cons.
  - by exists text, (path_of_segments segments tail).
  - destruct (IH Hin) as (before & after & ->).
    exists (text +:+ "/{" +:+ tok +:+ "}" +:+ before), after.
    by rewrite !string_app_assoc.
Qed.

End PathParameters.

(** C4 (as amended).  For every path, [build_path_parameters] gives one
    parameter for each group in braces that a slash directly precedes (each
    match of the pattern), in the order of the path, each with [dataType]
    [string], [paramType] [path] and [required] true, and none for a group
    in braces that no slash directly precedes.  Every path is a list of
    pieces (a text in which no slash stands directly before an opening
    brace, then a slash and a token in braces) and a tail that holds no
    token; the parameters are those of the tokens of its pieces, so that
    every parameter is a token that stands in the path after a slash and
    an opening brace; the path [/users/{id}/posts/{post_id}] gives [id] and
    [post_id] in that order. *)
Theorem build_path_parameters_segments :
  forall self : Introspectors.BaseMethodIntrospector,
    let path := Introspectors.path (Introspectors.parent self) in
    let params := Introspectors.build_path_parameters self in
    (forall segments tail,
        path = path_of_segments segments tail ->
        Forall plain_segment segments ->
        closed_tail tail ->
        params = path_param <$> segments.*2) /\
    (exists segments tail,
        path = path_of_segments segments tail /\
        Forall plain_segment segments /\ closed_tail tail) /\
    (forall param : Param,
        param ∈ params ->
        exists before token after,
          param = path_param token /\
          PyStr.contains "}" token = false /\
          path = before +:+ "/{" +:+ token +:+ "}" +:+ after) /\
    (PyStr.contains "/{" path = false -> params = []) /\
    (path = "/users/{id}/posts/{post_id}" ->
     params = [path_param "id"; path_param "post_id"]).
Proof.
  intros self path params. subst params. unfold Introspectors.build_path_parameters.
  fold path. split; [|split; [|split; [|split]]].
  - intros segments tail -> Hsegments Htail.
    by rewrite (findall_path_tokens_segments _ _ Hsegments Htail).
  - apply path_decomposes.
  - destruct (path_decomposes path) as (segments & tail & Hpath & Hsegments & Htail).
    rewrite Hpath, (findall_path_tokens_segments _ _ Hsegments Htail).
    intros param (token & -> & Htoken)%list_elem_of_fmap.
    destruct (segment_token_in_path segments tail token Htoken) as (before & after & Hin).
    exists before, token, after. split; [done|]. split; [|done].
    apply list_elem_of_fmap in Htoken as ([text tok] & -> & Hseg).
    rewrite list.Forall_forall in Hsegments. by destruct (Hsegments _ Hseg).
  - intros H. by rewrite (findall_path_tokens_without _ H).
  - by intros ->.
Qed.

(** C4, run on the example view, and on a path with a group after a
    hyphen and a group after a slash. *)
Lemma build_path_parameters_segments_witness :
  Introspectors.build_path_parameters Example.GET =
    [path_param "id"; path_param "post_id"] /\
  Introspectors.build_path_parameters
    (Introspectors.APIViewMethodIntrospector
       {| Introspectors.callback := Example.PostView;
          Introspectors.path := "/a-{x}/{y}.{ext}";
          Introspectors.pattern := Example.post_pattern |} "GET") =
    [path_param "y"].
Proof.
  split.
  - apply (proj1 (build_path_parameters_segments Example.GET)
             [("/users", "id"); ("/posts", "post_id")] "").
    + reflexivity.
    + repeat constructor.
    + by left.
  - apply (proj1 (build_path_parameters_segments _) [("/a-{x}", "y")] ".{ext}").
    + reflexivity.
    + repeat constructor.
    + by left.
Defined.

(** C4 as the specification words it fails: the path [/users-{id}/] holds
    the group [{id}], and gives no parameter, for no slash stands directly
    before the brace. *)
Lemma build_path_parameters_after_hyphen :
  brace_tokens "/users-{id}/" = ["id"] /\
  Introspectors.build_path_parameters
    (Introspectors.APIViewMethodIntrospector Example.hyphen_view "GET") = [].
Proof. split; reflexivity. Qed.

(** ** The actions of a view set *)

Section ResolveMethods.
Import Introspectors.

Lemma tuple_index_first name names idx :
  first_index name names idx -> tuple_index name names = Return idx.
Proof.
  revert idx. induction names as [|y names IH]; intros idx [Hat Hfirst]; [done|].
  cbn. destruct (String.eqb_spec y name) as [->|Hne].
  - destruct idx as [|idx]; [done|]. by destruct (Hfirst 0%nat ltac:(lia)).
  - destruct idx as [|idx]; [cbn in Hat; congruence|].
    rewrite (IH idx); [done|]. split; [done|].
    intros earlier Hlt. apply (Hfirst (S earlier)). lia.
Qed.

Lemma tuple_index_member name names :
  name ∈ names -> exists idx, first_index name names idx.
Proof.
  induction names as [|y names IH]; [by intros ?%elem_of_nil|].
  destruct (decide (y = name)) as [->|Hne].
  - intros _. exists 0%nat. split; [done|]. intros ? ?. lia.
  - intros [?|Hin]%elem_of_cons; [congruence|].
    destruct (IH Hin) as (idx & Hat & Hfirst). exists (S idx). split; [done|].
    intros [|earlier] Hlt; cbn; [congruence|]. apply Hfirst. lia.
Qed.

End ResolveMethods.

(** C8.  For a view set whose pattern has a callback: when the callback is
    not a function closing over a free variable named [actions],
    [_resolve_methods] raises [RuntimeError], and so does the iteration
    over the view set, which yields no method at all; when it is, and the
    closure has a cell at the place of [actions], [_resolve_methods]
    returns the mapping that cell holds and the iteration yields one method
    introspector for each of its items. *)
Theorem resolve_methods_raises_or_returns :
  forall (self : Introspectors.BaseViewIntrospector) (callback : PatternCallback),
    pattern_callback (Introspectors.pattern self) = Some callback ->
    (~ has_actions_closure callback ->
     Introspectors._resolve_methods self = Raise RuntimeError /\
     Introspectors.ViewSetIntrospector_iter self = Raise RuntimeError) /\
    (forall code freevars cells idx cell,
        func_code callback = Some code ->
        co_freevars code = Some freevars ->
        func_closure callback = Some (Some cells) ->
        first_index "actions" freevars idx ->
        cells !! idx = Some cell ->
        Introspectors._resolve_methods self = Return (cell_contents cell) /\
        Introspectors.ViewSetIntrospector_iter self =
          Return (map (fun item : string * string =>
                         Introspectors.ViewSetMethodIntrospector self item.2
                           (PyStr.upper item.1))
                      (cell_contents cell))).
Proof.
  intros self callback Hcallback. split.
  - intros Hshape.
    assert (Introspectors._resolve_methods self = Raise RuntimeError) as H.
    { unfold Introspectors._resolve_methods. rewrite Hcallback.
      destruct (func_code callback) as [code|] eqn:Ecode; [|done].
      destruct (func_closure callback) as [closure|] eqn:Eclosure; [|done].
      destruct (co_freevars code) as [freevars|] eqn:Efree; [|done].
      case_bool_decide as Hin; [done|].
      destruct Hshape. exists code, freevars, closure.
      by repeat split. }
    split; [exact H|]. unfold Introspectors.ViewSetIntrospector_iter. by rewrite H.
  - intros code freevars cells idx cell Hcode Hfree Hclosure Hfirst Hcell.
    assert (Introspectors._resolve_methods self = Return (cell_contents cell)) as H.
    { unfold Introspectors._resolve_methods.
      rewrite Hcallback, Hcode, Hclosure, Hfree.
      rewrite bool_decide_false.
      - rewrite (tuple_index_first _ _ _ Hfirst). cbn. by rewrite Hcell.
      - intros Hnot. apply Hnot. destruct Hfirst as [Hat _].
        by eapply list_elem_of_lookup_2. }
    split; [exact H|]. unfold Introspectors.ViewSetIntrospector_iter. by rewrite H.
Qed.

(** C8, run on the example view set, and on the example view, whose
    callback is no closure. *)
Lemma resolve_methods_raises_or_returns_witness :
  Introspectors._resolve_methods Example.viewset_view =
    Return [("get", "list"); ("post", "create")] /\
  Introspectors.ViewSetIntrospector_iter Example.post_view = Raise RuntimeError.
Proof.
  split.
  - refine (proj1 (proj2 (resolve_methods_raises_or_returns Example.viewset_view _ eq_refl)
                     _ _ _ 1%nat _ eq_refl eq_refl eq_refl _ eq_refl)).
    split; [reflexivity|]. intros [|[|earlier]] Hlt; [done|lia|lia].
  - refine (proj2 (proj1 (resolve_methods_raises_or_returns Example.post_view _ eq_refl) _)).
    intros (code & _ & _ & Hcode & _). discriminate Hcode.
Defined.

(** ** The models of a view *)

Section Models.
Import Introspectors Docstrcollector.

Lemma releated_of_none cls :
  declares_none cls -> _get_releated_classes_models_list cls = [].
Proof. destruct cls as [n d r]. by intros [H|H]; cbn in H; subst r. Qed.

Lemma releated_skipped cls :
  declares_none cls ->
  match get_releated_models_classes cls with
  | Some _ => _get_releated_classes_models_list cls
  | None => []
  end = [].
Proof.
  intros H. destruct (get_releated_models_classes cls) eqn:E; [|done].
  by apply releated_of_none.
Qed.

(** The classes of a root with two related models, the first of which has
    one of its own. *)
Lemma get_models_of_four self A B C D :
  get_model_class (callback self) = Some A ->
  get_releated_models_classes A = Some [B; C] ->
  get_releated_models_classes B = Some [D] ->
  declares_none C -> declares_none D ->
  DocstrIntrospector_get_models self = [A; B; C; D].
Proof.
  intros HA HBC HD HnC HnD. unfold DocstrIntrospector_get_models. rewrite HA.
  f_equal. destruct A as [nA dA rA]. cbn in HBC. subst rA. cbn.
  rewrite HD, (releated_skipped C HnC), app_nil_r.
  destruct B as [nB dB rB]. cbn in HD. subst rB. cbn.
  by rewrite (releated_skipped D HnD).
Qed.

End Models.

(** C9.  For a view whose root model [A] declares the related models [B]
    and [C], where [B] declares [D] and [C] and [D] declare none, the
    classes [DocstrIntrospector.get_models] finds are [A], [B], [C], [D],
    each once.  [DocstrCollector.get_models] then asks the introspector for
    [get_yaml_parser], which it does not have: on any list of apis that
    begins with this one it raises [AttributeError], and stores no key. *)
Theorem get_models_raises_attribute_error :
  forall (api : Endpoint) (apis : list Endpoint) (A B C D : ModelClass),
    get_model_class (endpoint_callback api) = Some A ->
    get_releated_models_classes A = Some [B; C] ->
    get_releated_models_classes B = Some [D] ->
    declares_none C -> declares_none D ->
    Docstrcollector.DocstrIntrospector_get_models
      (Docstrcollector.get_introspector api) = [A; B; C; D] /\
    Docstrcollector.DocstrCollector_get_models (api :: apis) = Raise AttributeError.
Proof.
  intros api apis A B C D HA HBC HD HnC HnD. split.
  - by apply get_models_of_four.
  - reflexivity.
Qed.

(** C9, run on the example models. *)
Lemma get_models_raises_attribute_error_witness :
  Docstrcollector.DocstrIntrospector_get_models
    (Docstrcollector.get_introspector Example.model_api)
  = [Example.A; Example.B; Example.C; Example.D] /\
  Docstrcollector.DocstrCollector_get_models [Example.model_api] = Raise AttributeError.
Proof.
  exact (get_models_raises_attribute_error Example.model_api []
           Example.A Example.B Example.C Example.D
           eq_refl eq_refl eq_refl (or_intror eq_refl) (or_introl eq_refl)).
Defined.

(** ** The route tree *)

Section Flatten.
Import Docstrurlparser.

Variable simplify_regex : string -> string.
Variable exclude_namespaces : list (option string).

Local Abbreviation flatten_entry := (flatten_entry simplify_regex).
Local Abbreviation flatten := (__flatten_patterns_tree__ simplify_regex).

(** Induction on a route tree, with the children of a resolver. *)
Lemma URLEntry_tree_ind (P : URLEntry -> Prop) :
  (forall pattern, P (RegexURLPattern pattern)) ->
  (forall namespace regex url_patterns,
      Forall P url_patterns -> P (RegexURLResolver namespace regex url_patterns)) ->
  P OtherEntry ->
  forall pattern, P pattern.
Proof.
  intros Hleaf Hresolver Hother. fix IH 1. intros [pattern|namespace regex kids|].
  - apply Hleaf.
  - apply Hresolver. induction kids as [|kid kids IHkids]; constructor; [apply IH|done].
  - apply Hother.
Qed.

(** The turn of the loop on a resolver is the loop on its children. *)
Lemma flatten_entry_resolver exclude prefix namespace regex url_patterns :
  flatten_entry exclude prefix (RegexURLResolver namespace regex url_patterns) =
  if bool_decide (namespace ∈ exclude) then Return []
  else flatten url_patterns (prefix +:+ regex) exclude.
Proof.
  cbn [Docstrurlparser.flatten_entry]. case_bool_decide; [done|].
  induction url_patterns as [|kid kids IH]; [done|].
  cbn [__flatten_patterns_tree__]. by rewrite <- IH.
Qed.

Lemma flatten_cons exclude prefix pattern rest :
  flatten (pattern :: rest) prefix exclude =
  (added ← flatten_entry exclude prefix pattern;
   pattern_list ← flatten rest prefix exclude;
   Return (added ++ pattern_list)).
Proof. reflexivity. Qed.

Lemma flatten_app exclude prefix patterns1 patterns2 :
  flatten (patterns1 ++ patterns2) prefix exclude =
  (added ← flatten patterns1 prefix exclude;
   pattern_list ← flatten patterns2 prefix exclude;
   Return (added ++ pattern_list)).
Proof.
  induction patterns1 as [|pattern rest IH].
  - cbn. by destruct (flatten patterns2 prefix exclude).
  - change ((pattern :: rest) ++ patterns2) with (pattern :: (rest ++ patterns2)).
    rewrite !flatten_cons, IH.
    destruct (flatten_entry exclude prefix pattern) as [added|]; [|done]. cbn.
    destruct (flatten rest prefix exclude) as [l1|]; [|done]. cbn.
    destruct (flatten patterns2 prefix exclude) as [l2|]; [|done]. cbn.
    by rewrite app_assoc.
Qed.

Lemma flatten_singleton exclude prefix pattern :
  flatten [pattern] prefix exclude = flatten_entry exclude prefix pattern.
Proof.
  rewrite flatten_cons. cbn.
  destruct (flatten_entry exclude prefix pattern) as [added|]; [|done].
  cbn. by rewrite app_nil_r.
Qed.

(** Flattening with excluded namespaces is flattening the pruned tree. *)
Lemma flatten_entry_prune pattern :
  forall prefix,
    flatten_entry exclude_namespaces prefix pattern =
    flatten (prune exclude_namespaces pattern) prefix [].
Proof.
  induction pattern as [pattern|namespace regex kids IH|] using URLEntry_tree_ind;
    intros prefix.
  - cbn [prune]. by rewrite flatten_singleton.
  - rewrite flatten_entry_resolver. cbn [prune]. case_bool_decide; [done|].
    rewrite flatten_singleton, flatten_entry_resolver.
    rewrite bool_decide_false by (by intros ?%elem_of_nil).
    generalize (prefix +:+ regex) as pref. intros pref.
    induction IH as [|kid kids Hkid _ IHkids]; [done|].
    cbn [map concat]. rewrite flatten_cons, flatten_app, Hkid, IHkids. done.
  - done.
Qed.

Lemma flatten_prune patterns prefix :
  flatten patterns prefix exclude_namespaces =
  flatten (prune_patterns exclude_namespaces patterns) prefix [].
Proof.
  unfold prune_patterns. induction patterns as [|pattern rest IH]; [done|].
  cbn [map concat]. by rewrite flatten_cons, flatten_app, flatten_entry_prune, IH.
Qed.

Lemma reaches_weaken prefix patterns patterns' endpoint :
  (forall pattern, pattern ∈ patterns -> pattern ∈ patterns') ->
  reaches simplify_regex exclude_namespaces prefix patterns endpoint ->
  reaches simplify_regex exclude_namespaces prefix patterns' endpoint.
Proof.
  intros Hsub H. destruct H.
  - eapply reaches_leaf; eauto.
  - eapply reaches_resolver; eauto.
Qed.

(** Whatever the turn on an entry adds is reached through resolvers that
    are not excluded. *)
Lemma flatten_entry_reaches pattern :
  forall prefix added endpoint,
    flatten_entry exclude_namespaces prefix pattern = Return added ->
    endpoint ∈ added ->
    reaches simplify_regex exclude_namespaces prefix [pattern] endpoint.
Proof.
  induction pattern as [pattern|namespace regex kids IH|] using URLEntry_tree_ind;
    intros prefix added endpoint Hflat Hin.
  - cbn in Hflat.
    destruct (__assemble_endpoint_data__ simplify_regex pattern prefix)
      as [[data|]|] eqn:E; cbn in Hflat; try done.
    + injection Hflat as <-. apply list_elem_of_singleton in Hin as ->.
      eapply reaches_leaf; [by left|done].
    + injection Hflat as <-. by apply elem_of_nil in Hin.
  - rewrite flatten_entry_resolver in Hflat. case_bool_decide as Hns.
    { injection Hflat as <-. by apply elem_of_nil in Hin. }
    eapply reaches_resolver; [by left|done|].
    revert added Hflat Hin. generalize (prefix +:+ regex) as pref. intros pref.
    induction IH as [|kid kids Hkid _ IHkids]; intros added Hflat Hin.
    { injection Hflat as <-. by apply elem_of_nil in Hin. }
    rewrite flatten_cons in Hflat.
    destruct (flatten_entry exclude_namespaces pref kid) as [l1|] eqn:E1; [|done].
    cbn in Hflat.
    destruct (flatten kids pref exclude_namespaces) as [l2|] eqn:E2; [|done].
    cbn in Hflat. injection Hflat as <-. apply elem_of_app in Hin as [Hin|Hin].
    + eapply reaches_weaken; [|by eapply Hkid].
      intros ? ->%list_elem_of_singleton. by left.
    + eapply reaches_weaken; [|by eapply IHkids].
      intros ? ?. by right.
  - injection Hflat as <-. by apply elem_of_nil in Hin.
Qed.

Lemma flatten_reaches patterns prefix pattern_list endpoint :
  flatten patterns prefix exclude_namespaces = Return pattern_list ->
  endpoint ∈ pattern_list ->
  reaches simplify_regex exclude_namespaces prefix patterns endpoint.
Proof.
  revert pattern_list. induction patterns as [|pattern rest IH];
    intros pattern_list Hflat Hin.
  { injection Hflat as <-. by apply elem_of_nil in Hin. }
  rewrite flatten_cons in Hflat.
  destruct (flatten_entry exclude_namespaces prefix pattern) as [l1|] eqn:E1; [|done].
  cbn in Hflat.
  destruct (flatten rest prefix exclude_namespaces) as [l2|] eqn:E2; [|done].
  cbn in Hflat. injection Hflat as <-. apply elem_of_app in Hin as [Hin|Hin].
  - eapply reaches_weaken; [|by eapply flatten_entry_reaches].
    intros ? ->%list_elem_of_singleton. by left.
  - eapply reaches_weaken; [|by eapply IH].
    intros ? ?. by right.
Qed.

(** An excluded resolver adds nothing, whatever stands below it. *)
Lemma flatten_excluded_resolver prefix before after namespace regex url_patterns :
  namespace ∈ exclude_namespaces ->
  flatten (before ++ RegexURLResolver namespace regex url_patterns :: after)
          prefix exclude_namespaces =
  flatten (before ++ after) prefix exclude_namespaces.
Proof.
  intros Hns. rewrite !flatten_app, flatten_cons, flatten_entry_resolver.
  rewrite bool_decide_true by done. cbn.
  destruct (flatten before prefix exclude_namespaces); [|done]. cbn.
  by destruct (flatten after prefix exclude_namespaces).
Qed.

End Flatten.

(** C7.  For every route tree and every list of excluded namespaces:
    a resolver whose namespace is excluded adds nothing to the flattened
    list, whatever its subtree holds; flattening gives what flattening
    without exclusion gives of the tree from which every excluded resolver
    is cut, at every depth (its subtree is not visited, so neither its
    endpoints nor its errors appear); and every endpoint of the list
    returned comes from a leaf reached through resolvers none of which has
    an excluded namespace. *)
Theorem flatten_prunes_excluded_namespaces :
  forall (simplify_regex : string -> string) (patterns : list URLEntry)
         (prefix : string) (exclude_namespaces : list (option string)),
    (forall before after namespace regex url_patterns,
        patterns = before ++ RegexURLResolver namespace regex url_patterns :: after ->
        namespace ∈ exclude_namespaces ->
        Docstrurlparser.__flatten_patterns_tree__ simplify_regex
          patterns prefix exclude_namespaces =
        Docstrurlparser.__flatten_patterns_tree__ simplify_regex
          (before ++ after) prefix exclude_namespaces) /\
    Docstrurlparser.__flatten_patterns_tree__ simplify_regex
      patterns prefix exclude_namespaces =
    Docstrurlparser.__flatten_patterns_tree__ simplify_regex
      (prune_patterns exclude_namespaces patterns) prefix [] /\
    (forall pattern_list endpoint,
        Docstrurlparser.__flatten_patterns_tree__ simplify_regex
          patterns prefix exclude_namespaces = Return pattern_list ->
        endpoint ∈ pattern_list ->
        reaches simplify_regex exclude_namespaces prefix patterns endpoint).
Proof.
  intros simplify_regex patterns prefix exclude_namespaces. repeat split.
  - intros before after namespace regex url_patterns -> Hns.
    by apply flatten_excluded_resolver.
  - apply flatten_prune.
  - apply flatten_reaches.
Qed.

(** C7, run on the example tree with [admin] excluded: the two endpoints
    outside [admin] are returned, and the one under [api] is reached
    through [api] alone; with nothing excluded the leaf under [admin]
    raises. *)
Lemma flatten_prunes_excluded_namespaces_witness :
  Docstrurlparser.__flatten_patterns_tree__ Example.keep_regex
    Example.urlpatterns "" [] = Raise TypeError /\
  Docstrurlparser.__flatten_patterns_tree__ Example.keep_regex
    Example.urlpatterns "" [Some "admin"] =
  Docstrurlparser.__flatten_patterns_tree__ Example.keep_regex
    (prune_patterns [Some "admin"] Example.urlpatterns) "" [] /\
  reaches Example.keep_regex [Some "admin"] "" Example.urlpatterns
    {| endpoint_path := "^api/^posts/$";
       endpoint_pattern := Example.viewset_pattern;
       endpoint_callback := Example.PostView |}.
Proof.
  split; [reflexivity|].
  destruct (flatten_prunes_excluded_namespaces Example.keep_regex
              Example.urlpatterns "" [Some "admin"]) as (_ & Hprune & Hreach).
  split; [exact Hprune|].
  eapply Hreach; [reflexivity|]. right. left.
Defined.

(** ** More of the code: notes, summary and nickname of a method *)

Section Bytes.
Import PyStr.

Lemma contains_byte_cons c x s :
  contains (String c "") (String x s) = Ascii.eqb c x || contains (String c "") s.
Proof. cbn. by destruct (Ascii.eqb c x). Qed.

Lemma contains_byte_app c a b :
  contains (String c "") (a +:+ b) =
  contains (String c "") a || contains (String c "") b.
Proof.
  induction a as [|x a IH]; [reflexivity|].
  change (String x a +:+ b) with (String x (a +:+ b)).
  by rewrite !contains_byte_cons, IH, orb_assoc.
Qed.

(** The pieces of a split at a byte hold none of that byte. *)
Lemma split_pieces_without_byte c s :
  Forall (fun piece => contains (String c "") piece = false) (split (String c "") s).
Proof.
  unfold split. induction s as [|x s IH]; [by repeat constructor|].
  cbn. destruct (Ascii.eqb c x) eqn:E; [by constructor|].
  destruct (split_from (String c "") 0 s) as [|piece pieces];
    [by repeat constructor; rewrite contains_byte_cons, E|].
  inversion IH as [|? ? Hpiece Hpieces]; subst.
  constructor; [|done]. by rewrite contains_byte_cons, E.
Qed.

(** The pieces of a split at a byte hold no byte the string does not. *)
Lemma split_pieces_keep_byte c d s :
  contains (String d "") s = false ->
  Forall (fun piece => contains (String d "") piece = false) (split (String c "") s).
Proof.
  unfold split. induction s as [|x s IH]; [by repeat constructor|].
  rewrite contains_byte_cons. intros [Hx Hs]%orb_false_elim. specialize (IH Hs).
  cbn. destruct (Ascii.eqb c x); [by constructor|].
  destruct (split_from (String c "") 0 s) as [|piece pieces];
    [by repeat constructor; rewrite contains_byte_cons, Hx|].
  inversion IH as [|? ? Hpiece Hpieces]; subst.
  constructor; [|done]. by rewrite contains_byte_cons, Hx.
Qed.

Lemma join_without_byte c sep pieces :
  contains (String c "") sep = false ->
  Forall (fun piece => contains (String c "") piece = false) pieces ->
  contains (String c "") (join sep pieces) = false.
Proof.
  intros Hsep H. induction H as [|piece pieces Hpiece Hpieces IH]; [done|].
  destruct pieces as [|next pieces]; [done|].
  change (join sep (piece :: next :: pieces))
    with (piece +:+ sep +:+ join sep (next :: pieces)).
  by rewrite !contains_byte_app, Hpiece, Hsep, IH.
Qed.

(** Replacing a byte by another leaves none of the first. *)
Lemma replace_byte_gone c d s :
  c <> d -> contains (String c "") (replace (String c "") (String d "") s) = false.
Proof.
  intros Hcd. unfold replace. induction s as [|x s IH]; [done|].
  cbn. destruct (Ascii.eqb c x) eqn:E.
  - change (String d "" +:+ ?r) with (String d r).
    rewrite contains_byte_cons, IH. by destruct (Ascii.eqb_spec c d).
  - by rewrite contains_byte_cons, E, IH.
Qed.

(** Replacing a byte by another brings in no third byte. *)
Lemma replace_byte_keeps c d e s :
  e <> d -> contains (String e "") s = false ->
  contains (String e "") (replace (String c "") (String d "") s) = false.
Proof.
  intros Hed. unfold replace. induction s as [|x s IH]; [done|].
  rewrite contains_byte_cons. intros [Hx Hs]%orb_false_elim. specialize (IH Hs).
  cbn. destruct (Ascii.eqb c x).
  - change (String d "" +:+ ?r) with (String d r).
    rewrite contains_byte_cons, IH. by destruct (Ascii.eqb_spec e d).
  - by rewrite contains_byte_cons, Hx, IH.
Qed.

Lemma replace_byte_length c d s :
  String.length (replace (String c "") (String d "") s) = String.length s.
Proof.
  unfold replace. induction s as [|x s IH]; [done|].
  cbn. destruct (Ascii.eqb c x).
  - change (String d "" +:+ ?r) with (String d r). cbn. by rewrite IH.
  - cbn. by rewrite IH.
Qed.

Lemma notes_of_lines_without_LF lines :
  Forall (fun line => contains LF line = false) lines ->
  contains LF (notes_of_lines lines) = false.
Proof.
  intros H. unfold notes_of_lines. apply join_without_byte; [done|].
  apply Forall_fmap. eapply list.Forall_impl; [exact H|]. cbn.
  intros line Hline. by destruct (String.eqb line "").
Qed.

Lemma sub_blank_lines_without_LF s :
  contains LF s = false -> MethodDocs.sub_blank_lines s = s.
Proof.
  unfold MethodDocs.sub_blank_lines. induction s as [|c s IH]; [done|].
  unfold LF in *. rewrite contains_byte_cons. intros [Hc Hs]%orb_false_elim.
  cbn. unfold Re.is_LF. rewrite Ascii.eqb_sym, Hc. by rewrite (IH Hs).
Qed.

Lemma string_app_nil (a : string) : a +:+ "" = a.
Proof.
  induction a as [|x a IH]; [done|].
  change (String x a +:+ "") with (String x (a +:+ "")). by rewrite IH.
Qed.

(** The first piece of a split at a byte is the string up to that byte. *)
Lemma split_first_piece c s :
  exists rest,
    s = hd "" (split (String c "") s) +:+ rest /\
    (rest = "" \/ startswith (String c "") rest = true).
Proof.
  pose proof (join_split (String c "") s ltac:(done)) as Hjoin.
  pose proof (split_from_nonempty (String c "") 0 s) as Hne.
  unfold split in *. destruct (split_from (String c "") 0 s) as [|piece [|next pieces]];
    [done|..]; cbn [hd].
  - exists "". split; [|by left]. cbn in Hjoin. rewrite <- Hjoin.
    by rewrite string_app_nil.
  - exists (String c "" +:+ join (String c "") (next :: pieces)). split; [done|].
    right. change (String c "" +:+ ?r) with (String c r).
    cbn. by rewrite Ascii.eqb_refl.
Qed.

End Bytes.

(** X1.  The notes of a method hold no line feed, and the two steps of
    [get_notes] after [strip_params_from_docstring] (the substitution of
    blank lines and the replacement of line feeds) change nothing: the
    notes are what [strip_params_from_docstring] gives of the trimmed class
    description followed, when the method has a docstring, by a line feed
    and that docstring. *)
Theorem get_notes_is_one_line :
  forall (trim_docstring : string -> string) (self : Introspectors.BaseMethodIntrospector),
    PyStr.contains LF (MethodDocs.get_notes trim_docstring self) = false /\
    MethodDocs.get_notes trim_docstring self =
      Introspectors.strip_params_from_docstring trim_docstring
        (trim_docstring
           (view_description (Introspectors.callback (Introspectors.parent self)))
         +:+ match Introspectors.get_docs self with
             | Some method_docs => LF +:+ method_docs
             | None => ""
             end).
Proof.
  intros trim_docstring self.
  assert (forall docstring,
            PyStr.contains LF
              (Introspectors.strip_params_from_docstring trim_docstring docstring)
            = false) as Hstrip.
  { intros docstring. unfold Introspectors.strip_params_from_docstring.
    apply notes_of_lines_without_LF.
    pose proof (split_pieces_without_byte "010" (trim_docstring docstring)) as H.
    destruct (Introspectors.find_cut_off 0 _); [by apply Forall_take|done]. }
  assert (MethodDocs.get_notes trim_docstring self =
          Introspectors.strip_params_from_docstring trim_docstring
            (trim_docstring
               (view_description (Introspectors.callback (Introspectors.parent self)))
             +:+ match Introspectors.get_docs self with
                 | Some method_docs => LF +:+ method_docs
                 | None => ""
                 end)) as Hnotes.
  { unfold MethodDocs.get_notes.
    destruct (Introspectors.get_docs self) as [method_docs|].
    - change ("" +:+ ?a) with a.
      rewrite sub_blank_lines_without_LF by apply Hstrip.
      by rewrite replace_without by apply Hstrip.
    - change ("" +:+ ?a) with a. rewrite string_app_nil.
      rewrite sub_blank_lines_without_LF by apply Hstrip.
      by rewrite replace_without by apply Hstrip. }
  split; [|exact Hnotes]. rewrite Hnotes. apply Hstrip.
Qed.

(** X2.  The summary of a method is the first line of the trimmed docs:
    it holds no line feed, and the trimmed docs are the summary, followed
    by nothing or by a line feed and the rest.  The docs are the docstring
    of the method when it has one, even an empty one, and the first
    sentence of the class description otherwise. *)
Theorem get_summary_is_first_line :
  forall (trim_docstring : string -> string) (self : Introspectors.BaseMethodIntrospector),
    let docs :=
      match Introspectors.get_docs self with
      | Some docs => docs
      | None => Introspectors.get_description (Introspectors.parent self)
      end in
    let summary := MethodDocs.get_summary trim_docstring self in
    PyStr.contains LF summary = false /\
    exists rest,
      trim_docstring docs = summary +:+ rest /\
      (rest = "" \/ PyStr.startswith LF rest = true).
Proof.
  intros trim_docstring self docs summary. subst summary.
  unfold MethodDocs.get_summary. fold docs. split.
  - pose proof (split_pieces_without_byte "010" (trim_docstring docs)) as H.
    unfold LF. destruct (PyStr.split _ (trim_docstring docs)); [done|].
    by inversion H.
  - apply split_first_piece.
Qed.

(** X3.  The nickname of a method holds no space, and is as long as the
    name of the view. *)
Theorem get_nickname_has_no_space :
  forall (get_view_name : ViewClass -> string) (self : Introspectors.BaseMethodIntrospector),
    PyStr.contains " " (MethodDocs.get_nickname get_view_name self) = false /\
    String.length (MethodDocs.get_nickname get_view_name self) =
    String.length (get_view_name (Introspectors.callback (Introspectors.parent self))).
Proof.
  intros get_view_name self. unfold MethodDocs.get_nickname. split.
  - by apply replace_byte_gone.
  - apply replace_byte_length.
Qed.

(** X4.  The description of a view is the first sentence of the first line
    of its class description: it holds no full stop and no line feed. *)
Theorem get_description_is_first_sentence :
  forall self : Introspectors.BaseViewIntrospector,
    PyStr.contains "." (Introspectors.get_description self) = false /\
    PyStr.contains LF (Introspectors.get_description self) = false.
Proof.
  intros self. unfold Introspectors.get_description, Introspectors.get_view_description.
  set (line := hd "" (PyStr.split LF (view_description (Introspectors.callback self)))).
  assert (PyStr.contains LF line = false) as Hline.
  { subst line.
    pose proof (split_pieces_without_byte "010"
                  (view_description (Introspectors.callback self))) as H.
    unfold LF. destruct (PyStr.split _ _); [done|]. by inversion H. }
  split.
  - pose proof (split_pieces_without_byte "." line) as H.
    destruct (PyStr.split "." line); [done|]. by inversion H.
  - pose proof (split_pieces_keep_byte "." "010" line Hline) as H.
    unfold LF. destruct (PyStr.split "." line); [done|]. by inversion H.
Qed.
